(** * sui-mev operational scripts: balance monitor and bot restarter

    A shallow embedding of [scripts/monitor_profit.py] and
    [scripts/restart_bot.py].

    Both scripts are sequential polling loops over an outside world (a
    JSON-RPC node, the Telegram API, the [tmux] binary, the clock).  The
    world is an explicit input: every call that leaves the process takes
    the reply the world gives to it.  What the scripts do to the world
    (requests posted, commands run, lines printed or logged, sleeps) is
    recorded in a trace, and Python exceptions are carried in an error
    monad, so that [try]/[except] blocks keep the shape they have in the
    source. *)

From Stdlib Require Import ZArith List String Ascii Bool Lia.
Import ListNotations.

Set Warnings "-register-all".

Open Scope string_scope.
Open Scope list_scope.
Open Scope Z_scope.

(** ** Python values, exceptions and the effect monad *)

Module Py.

(** The exception classes that the two scripts can meet.
    [RequestException] stands for the exceptions of [requests] other than
    [HTTPError] (connection errors, timeouts); [OSError] for a command that
    cannot be launched. *)
Inductive exn : Type :=
| KeyboardInterrupt
| HTTPError
| RequestException
| JSONDecodeError
| TypeError
| KeyError
| IndexError
| ValueError
| UnboundLocalError
| UnicodeDecodeError
| OSError
| OverflowError
| CalledProcessError (returncode : Z).

(** [except Exception] catches everything but [KeyboardInterrupt], which
    derives from [BaseException] only. *)
Definition is_Exception (e : exn) : bool :=
  match e with
  | KeyboardInterrupt => false
  | _ => true
  end.

Inductive result (A : Type) : Type :=
| Ok (a : A)
| Raise (e : exn).
Arguments Ok {A} a.
Arguments Raise {A} e.

(** A computation yields the events it performed and then a value or an
    exception. *)
Definition M (E A : Type) : Type := list E * result A.

Section Eff.
Context {E : Type}.

Definition ret {A} (a : A) : M E A := ([], Ok a).
Definition raise {A} (e : exn) : M E A := ([], Raise e).
Definition emit (ev : E) : M E unit := ([ev], Ok tt).
Definition lift {A} (r : result A) : M E A := ([], r).

Definition bind {A B} (m : M E A) (k : A -> M E B) : M E B :=
  match m with
  | (t, Ok a) => let (t', r) := k a in (t ++ t', r)
  | (t, Raise e) => (t, Raise e)
  end.

(** [try: body except ...: handler].  The handler table answers [None]
    for an exception that no [except] clause matches; the exception
    then propagates.  An exception raised by a handler propagates
    too. *)
Definition try_except {A} (body : M E A) (handler : exn -> option (M E A))
  : M E A :=
  match body with
  | (t, Raise e) =>
      match handler e with
      | Some h => let (t', r) := h in (t ++ t', r)
      | None => (t, Raise e)
      end
  | (t, Ok a) => (t, Ok a)
  end.

Definition trace {A} (m : M E A) : list E := fst m.
Definition outcome {A} (m : M E A) : result A := snd m.
End Eff.

(** A float as [json] decoding produces one: a finite double, of value
    [m * 2 ^ e], an infinity or a NaN ([json] reads Infinity, -Infinity and
    NaN as well as numbers with a fraction or an exponent). *)
Inductive double : Type :=
| Finite (m e : Z)
| Infinity (negative : bool)
| NaN.

(** Values as [json] decoding produces them; a dict is the list of its
    items, each key once. *)
Inductive value : Type :=
| VNone
| VBool (b : bool)
| VInt (n : Z)
| VFloat (x : double)
| VStr (s : string)
| VList (l : list value)
| VDict (d : list (string * value)).

Fixpoint assoc (k : string) (d : list (string * value)) : option value :=
  match d with
  | [] => None
  | (k', v) :: d' => if String.eqb k k' then Some v else assoc k d'
  end.

(** [v == s] for a string literal [s]. *)
Definition eq_str (v : value) (s : string) : bool :=
  match v with
  | VStr s' => String.eqb s' s
  | _ => false
  end.

Definition is_substring (k s : string) : bool :=
  match String.index 0 k s with
  | Some _ => true
  | None => false
  end.

(** [k in v] for a string [k]: key test on a dict, membership on a list,
    substring test on a string, [TypeError] on anything else. *)
Definition contains (k : string) (v : value) : result bool :=
  match v with
  | VDict d => Ok (match assoc k d with Some _ => true | None => false end)
  | VList l => Ok (existsb (fun x => eq_str x k) l)
  | VStr s => Ok (is_substring k s)
  | VNone | VBool _ | VInt _ | VFloat _ => Raise TypeError
  end.

(** [v[k]] for a string [k]. *)
Definition getitem (v : value) (k : string) : result value :=
  match v with
  | VDict d =>
      match assoc k d with
      | Some x => Ok x
      | None => Raise KeyError
      end
  | _ => Raise TypeError
  end.

(** [v[0]]. *)
Definition getitem0 (v : value) : result value :=
  match v with
  | VList (x :: _) => Ok x
  | VList [] => Raise IndexError
  | VStr (String c _) => Ok (VStr (String c EmptyString))
  | VStr EmptyString => Raise IndexError
  | VDict _ => Raise KeyError
  | VNone | VBool _ | VInt _ | VFloat _ => Raise TypeError
  end.

Definition truthy (v : value) : bool :=
  match v with
  | VNone => false
  | VBool b => b
  | VInt n => negb (n =? 0)
  | VFloat (Finite m _) => negb (m =? 0)
  | VFloat (Infinity _) | VFloat NaN => true
  | VStr s => negb (String.eqb s "")
  | VList l => match l with [] => false | _ => true end
  | VDict d => match d with [] => false | _ => true end
  end.

Definition len (v : value) : result Z :=
  match v with
  | VStr s => Ok (Z.of_nat (String.length s))
  | VList l => Ok (Z.of_nat (List.length l))
  | VDict d => Ok (Z.of_nat (List.length d))
  | VNone | VBool _ | VInt _ | VFloat _ => Raise TypeError
  end.

(** *** [int(s)] on a string: optional blanks around, an optional sign,
    decimal digits, single underscores between digits.  A string is a
    sequence of characters below 256.  There the blanks that [int] skips
    are the ASCII ones (tab to carriage return, and the space) and the two
    blanks above 127, next line and no-break space; the separators 28 to
    31 are not skipped; the decimal digits are the ASCII ones.  A literal
    of more than 4300 digits is refused (the limit of the interpreter as
    it is set by default). *)

Definition code (c : ascii) : Z := Z.of_N (N_of_ascii c).

Definition is_space (c : ascii) : bool :=
  ((9 <=? code c) && (code c <=? 13))
  || (code c =? 32) || (code c =? 133) || (code c =? 160).

Definition digit_of (c : ascii) : option Z :=
  if (48 <=? code c) && (code c <=? 57) then Some (code c - 48) else None.

Fixpoint lstrip (s : string) : string :=
  match s with
  | String c r => if is_space c then lstrip r else s
  | EmptyString => EmptyString
  end.

Fixpoint rev_append (s acc : string) : string :=
  match s with
  | String c r => rev_append r (String c acc)
  | EmptyString => acc
  end.

Definition strip (s : string) : string :=
  rev_append (lstrip (rev_append (lstrip s) "")) "".

(** [after_digit] tells whether the character just read was a digit: an
    underscore is accepted only there, and the literal must end there. *)
Fixpoint digits (acc : Z) (after_digit : bool) (s : string) : option Z :=
  match s with
  | EmptyString => if after_digit then Some acc else None
  | String c r =>
      match digit_of c with
      | Some d => digits (10 * acc + d) true r
      | None =>
          if Ascii.eqb c "_" && after_digit then digits acc false r else None
      end
  end.

Fixpoint count_digits (s : string) : nat :=
  match s with
  | EmptyString => O
  | String c r =>
      match digit_of c with
      | Some _ => S (count_digits r)
      | None => count_digits r
      end
  end.

Definition max_str_digits : nat := 4300.

Definition literal (s : string) : option Z :=
  match digits 0 false s with
  | Some n => if Nat.leb (count_digits s) max_str_digits then Some n else None
  | None => None
  end.

Definition parse_int (s : string) : option Z :=
  match strip s with
  | String "+" r => literal r
  | String "-" r => option_map Z.opp (literal r)
  | t => literal t
  end.

(** [int(v)]: a string is parsed, a float is truncated towards zero. *)
Definition int (v : value) : result Z :=
  match v with
  | VStr s =>
      match parse_int s with
      | Some n => Ok n
      | None => Raise ValueError
      end
  | VInt n => Ok n
  | VBool b => Ok (if b then 1 else 0)
  | VFloat (Finite m e) =>
      Ok (if 0 <=? e then m * 2 ^ e else Z.quot m (2 ^ (- e)))
  | VFloat (Infinity _) => Raise OverflowError
  | VFloat NaN => Raise ValueError
  | VNone | VList _ | VDict _ => Raise TypeError
  end.

(** *** [bytes.decode('utf-8')]: well-formed UTF-8 or [UnicodeDecodeError]. *)

Definition in_range (lo hi b : Z) : bool := (lo <=? b) && (b <=? hi).
Definition tail_byte (b : Z) : bool := in_range 128 191 b.

Fixpoint utf8_valid (bs : list Z) : bool :=
  match bs with
  | [] => true
  | b0 :: r0 =>
      if in_range 0 127 b0 then utf8_valid r0
      else if in_range 194 223 b0 then
        match r0 with
        | b1 :: r1 => tail_byte b1 && utf8_valid r1
        | _ => false
        end
      else if in_range 224 239 b0 then
        match r0 with
        | b1 :: b2 :: r2 =>
            (if b0 =? 224 then in_range 160 191 b1
             else if b0 =? 237 then in_range 128 159 b1
             else tail_byte b1)
            && tail_byte b2 && utf8_valid r2
        | _ => false
        end
      else if in_range 240 244 b0 then
        match r0 with
        | b1 :: b2 :: b3 :: r3 =>
            (if b0 =? 240 then in_range 144 191 b1
             else if b0 =? 244 then in_range 128 143 b1
             else tail_byte b1)
            && tail_byte b2 && tail_byte b3 && utf8_valid r3
        | _ => false
        end
      else false
  end.

(** The code points that well-formed UTF-8 stands for. *)
Fixpoint code_points (bs : list Z) : list Z :=
  match bs with
  | [] => []
  | b0 :: r0 =>
      if in_range 0 127 b0 then b0 :: code_points r0
      else if in_range 194 223 b0 then
        match r0 with
        | b1 :: r1 => ((b0 - 192) * 64 + (b1 - 128)) :: code_points r1
        | _ => []
        end
      else if in_range 224 239 b0 then
        match r0 with
        | b1 :: b2 :: r2 =>
            ((b0 - 224) * 4096 + (b1 - 128) * 64 + (b2 - 128))
            :: code_points r2
        | _ => []
        end
      else
        match r0 with
        | b1 :: b2 :: b3 :: r3 =>
            ((b0 - 240) * 262144 + (b1 - 128) * 4096
             + (b2 - 128) * 64 + (b3 - 128))
            :: code_points r3
        | _ => []
        end
  end.

(** A text is the list of its code points. *)
Definition decode_utf8 (bs : list Z) : result (list Z) :=
  if utf8_valid bs then Ok (code_points bs) else Raise UnicodeDecodeError.

(** [str.strip()]: the blanks of [str.isspace] are removed at both ends. *)
Definition is_blank (c : Z) : bool :=
  in_range 9 13 c || in_range 28 32 c || (c =? 133) || (c =? 160)
  || (c =? 5760) || in_range 8192 8202 c || (c =? 8232) || (c =? 8233)
  || (c =? 8239) || (c =? 8287) || (c =? 12288).

Fixpoint lstrip_text (t : list Z) : list Z :=
  match t with
  | c :: r => if is_blank c then lstrip_text r else t
  | [] => []
  end.

Definition strip_text (t : list Z) : list Z :=
  rev (lstrip_text (rev (lstrip_text t))).

End Py.

Declare Scope py_scope.
Delimit Scope py_scope with py.
Notation "x <- m ;; k" := (Py.bind m (fun x => k))
  (at level 61, m at next level, right associativity) : py_scope.
Notation "m ;; k" := (Py.bind m (fun _ => k))
  (at level 61, right associativity) : py_scope.

(** ** [scripts/monitor_profit.py] *)

Module Monitor.
Import Py.
Local Open Scope py_scope.

(** The module-level variables.  Only [profit_address_balance] is ever
    assigned after start-up. *)
Record globals : Type := {
  profit_address : string;
  URL : string;
  SUI_ARB_BOT_TOKEN : string;
  GROUP_SUI_ARB : string;
  THREAD_ONCHAIN_LARGE_PROFIT : string;
  BALANCE_DIFF_THRESHOLD : Z;
  profit_address_balance : Z
}.

(** Their values as the file is distributed: the deployment strings are
    left empty there. *)
Definition module_globals : globals := {|
  profit_address := "";
  URL := "";
  SUI_ARB_BOT_TOKEN := "";
  GROUP_SUI_ARB := "";
  THREAD_ONCHAIN_LARGE_PROFIT := "";
  BALANCE_DIFF_THRESHOLD := 500000000;
  profit_address_balance := 0
|}.

Definition set_profit_address_balance (g : globals) (b : Z) : globals := {|
  profit_address := profit_address g;
  URL := URL g;
  SUI_ARB_BOT_TOKEN := SUI_ARB_BOT_TOKEN g;
  GROUP_SUI_ARB := GROUP_SUI_ARB g;
  THREAD_ONCHAIN_LARGE_PROFIT := THREAD_ONCHAIN_LARGE_PROFIT g;
  BALANCE_DIFF_THRESHOLD := BALANCE_DIFF_THRESHOLD g;
  profit_address_balance := b
|}.

(** What the world answers to one [requests.post]: the call raises, or a
    response comes back with a status code and a body; [json = None] is a
    body that is not JSON. *)
Inductive http_reply : Type :=
| PostRaises (e : exn)
| Response (status_code : Z) (json : option value).

Inductive caller : Type := InBalance | InTx | InTelegram.

(** The lines the script prints, one constructor per [print]. *)
Inductive line : Type :=
| HttpErrorLine (c : caller)
| OtherErrorLine (c : caller) (e : exn)
| RpcErrorLine (c : caller) (error : value)
| UnexpectedFormatLine (c : caller)
| StatusCodeLine (c : caller) (status_code : Z)
| SkipNoBaselineLine
| SkipLine (previous : Z)
| MonitoringLine (address : string)
| RpcUrlLine (url : string)
| ThresholdLine (threshold : Z)
| InitialBalanceLine (balance : Z)
| NoInitialBalanceLine.

(** What [send_telegram_message] is given to say: the text is built from
    the transaction digest (the link is the SuiVision prefix followed by
    it) and from the two balances, the integers of lines 112 and 113. *)
Record message : Type := {
  digest : value;
  previous_balance : Z;
  current_balance : Z
}.

(** The amounts that the text prints, in units of 10^-9 SUI.  Each balance
    is divided by 10^9 with [Decimal] in its default context and printed
    with nine decimals: this is exact except that [Decimal] rounds a
    result to 28 significant digits, ties to even.  The profit printed is
    the difference of the two rounded balances, rounded the same way. *)
Fixpoint excess_digits (fuel : nat) (a : Z) : Z :=
  match fuel with
  | O => 0
  | S fuel' =>
      if a <? 10 ^ 28 then 0 else 1 + excess_digits fuel' (a / 10)
  end.

Definition round28 (n : Z) : Z :=
  let a := Z.abs n in
  let k := excess_digits (Z.to_nat (Z.log2 a)) a in
  if k =? 0 then n
  else
    let p := 10 ^ k in
    let q := a / p in
    let r := a mod p in
    let up := (p / 2 <? r) || ((r =? p / 2) && Z.odd q) in
    Z.sgn n * ((if up then q + 1 else q) * p).

Definition shown_previous (m : message) : Z := round28 (previous_balance m).
Definition shown_current (m : message) : Z := round28 (current_balance m).
Definition shown_profit (m : message) : Z :=
  round28 (shown_current m - shown_previous m).

(** The decimal numeral of a number that is not negative. *)
Fixpoint numeral_from (fuel : nat) (n : Z) (acc : string) : string :=
  match fuel with
  | O => acc
  | S fuel' =>
      let acc' := String (ascii_of_nat (48 + Z.to_nat (n mod 10))) acc in
      if n <? 10 then acc' else numeral_from fuel' (n / 10) acc'
  end.

Definition numeral (n : Z) : string :=
  numeral_from (S (Z.to_nat (Z.log2 n))) n "".

Fixpoint zfill_from (fuel width : nat) (s : string) : string :=
  match fuel with
  | O => s
  | S fuel' =>
      if Nat.ltb (String.length s) width
      then zfill_from fuel' width (String "0" s)
      else s
  end.

Definition zfill (width : nat) (s : string) : string :=
  zfill_from width width s.

(** [f'{x:.9f}'] for the [Decimal] x of [n] units of 10^-9. *)
Definition fixed9 (n : Z) : string :=
  let a := Z.abs n in
  String.append (if n <? 0 then "-" else "")
    (String.append (numeral (a / 10 ^ 9))
       (String "." (zfill 9 (numeral (a mod 10 ^ 9))))).

(** The three amounts as the text of the message has them, between
    backquotes and followed by SUI. *)
Definition previous_text (m : message) : string := fixed9 (shown_previous m).
Definition current_text (m : message) : string := fixed9 (shown_current m).
Definition profit_text (m : message) : string := fixed9 (shown_profit m).

Inductive event : Type :=
| RpcPost (url : string) (payload : value)
| TelegramPost (bot_token chat_id thread_id : string) (msg : message)
| Print (l : line)
| Sleep (seconds : Z).

(** [response.raise_for_status()]. *)
Definition raise_for_status (status_code : Z) : result unit :=
  if (400 <=? status_code) && (status_code <? 600)
  then Raise HTTPError else Ok tt.

(** [response.json()]. *)
Definition response_json (json : option value) : result value :=
  match json with
  | Some v => Ok v
  | None => Raise JSONDecodeError
  end.

Definition balance_payload (addr : string) : value :=
  VDict [("jsonrpc", VStr "2.0");
         ("id", VInt 1);
         ("method", VStr "suix_getBalance");
         ("params", VList [VStr addr])].

Definition get_current_balance (g : globals) (addr : string)
    (reply : http_reply) : M event value :=
  r <- try_except
         (emit (RpcPost (URL g) (balance_payload addr));;
          match reply with
          | PostRaises e => raise e
          | Response status_code json =>
              lift (raise_for_status status_code);;
              ret (inr (status_code, json))
          end)
         (fun e =>
            match e with
            | HTTPError =>
                Some (emit (Print (HttpErrorLine InBalance));;
                      ret (inl (VStr "0")))
            | _ =>
                if is_Exception e
                then Some (emit (Print (OtherErrorLine InBalance e));;
                           ret (inl (VStr "0")))
                else None
            end);;
  match r with
  | inl early => ret early
  | inr (status_code, json) =>
      if status_code =? 200 then
        result <- lift (response_json json);;
        has_error <- lift (contains "error" result);;
        if has_error : bool then
          error <- lift (getitem result "error");;
          emit (Print (RpcErrorLine InBalance error));;
          ret (VStr "0")
        else
          has_result <- lift (contains "result" result);;
          has_total <-
            (if has_result : bool then
               res <- lift (getitem result "result");;
               lift (contains "totalBalance" res)
             else ret false);;
          if has_total : bool then
            res <- lift (getitem result "result");;
            lift (getitem res "totalBalance")
          else
            emit (Print (UnexpectedFormatLine InBalance));;
            ret (VStr "0")
      else
        emit (Print (StatusCodeLine InBalance status_code));;
        ret (VStr "0")
  end.

Definition tx_params (addr : string) : value :=
  VList [VDict [("filter", VDict [("ToAddress", VStr addr)]);
                ("options", VDict [("showEffects", VBool false);
                                   ("showInput", VBool false);
                                   ("showEvents", VBool false);
                                   ("showObjectChanges", VBool false);
                                   ("showBalanceChanges", VBool false)])];
         VNone;
         VInt 1;
         VBool true].

Definition tx_payload (addr : string) : value :=
  VDict [("jsonrpc", VStr "2.0");
         ("id", VInt 1);
         ("method", VStr "suix_queryTransactionBlocks");
         ("params", tx_params addr)].

(** Returns [None] or the digest the link is built from.  The link text
    starts with the SuiVision prefix, so it is never an empty string. *)
Definition get_tx (g : globals) (addr : string) (reply : http_reply)
    : M event (option value) :=
  r <- try_except
         (emit (RpcPost (URL g) (tx_payload addr));;
          match reply with
          | PostRaises e => raise e
          | Response status_code json =>
              lift (raise_for_status status_code);;
              ret (inr (status_code, json))
          end)
         (fun e =>
            match e with
            | HTTPError =>
                Some (emit (Print (HttpErrorLine InTx));; ret (inl None))
            | _ =>
                if is_Exception e
                then Some (emit (Print (OtherErrorLine InTx e));;
                           ret (inl None))
                else None
            end);;
  match r with
  | inl early => ret early
  | inr (status_code, json) =>
      if status_code =? 200 then
        result <- lift (response_json json);;
        has_error <- lift (contains "error" result);;
        if has_error : bool then
          error <- lift (getitem result "error");;
          emit (Print (RpcErrorLine InTx error));;
          ret None
        else
          has_result <- lift (contains "result" result);;
          found <-
            (if has_result : bool then
               res <- lift (getitem result "result");;
               data <- lift (getitem res "data");;
               if truthy data then
                 n <- lift (len data);;
                 ret (0 <? n)
               else ret false
             else ret false);;
          if found : bool then
            res <- lift (getitem result "result");;
            data <- lift (getitem res "data");;
            first <- lift (getitem0 data);;
            tx_hash <- lift (getitem first "digest");;
            ret (Some tx_hash)
          else
            emit (Print (UnexpectedFormatLine InTx));;
            ret None
      else
        emit (Print (StatusCodeLine InTx status_code));;
        ret None
  end.

(** Returns the decoded reply, or [None] for either of the two
    [{"ok": False, ...}] dicts.  In the [HTTPError] handler the name
    [response] is bound only if the post itself returned. *)
Definition send_telegram_message (bot_token chat_id thread_id : string)
    (msg : message) (reply : http_reply) : M event (option value) :=
  try_except
    (emit (TelegramPost bot_token chat_id thread_id msg);;
     match reply with
     | PostRaises e => raise e
     | Response status_code json =>
         lift (raise_for_status status_code);;
         v <- lift (response_json json);;
         ret (Some v)
     end)
    (fun e =>
       match e with
       | HTTPError =>
           Some (match reply with
                 | Response _ _ =>
                     emit (Print (HttpErrorLine InTelegram));; ret None
                 | PostRaises _ => raise UnboundLocalError
                 end)
       | _ =>
           if is_Exception e
           then Some (emit (Print (OtherErrorLine InTelegram e));; ret None)
           else None
       end).

(** The replies of the world to the (at most three) requests of one
    iteration. *)
Record tick : Type := {
  balance_reply : http_reply;
  tx_reply : http_reply;
  telegram_reply : http_reply
}.

Definition monitor_profit (g : globals) (addr : string) (w : tick)
    : M event globals :=
  current_str <- get_current_balance g addr (balance_reply w);;
  if eq_str current_str "0" then
    (if profit_address_balance g =? 0
     then emit (Print SkipNoBaselineLine)
     else emit (Print (SkipLine (profit_address_balance g))));;
    ret g
  else
    current <- lift (int current_str);;
    (if negb (profit_address_balance g =? 0)
        && (BALANCE_DIFF_THRESHOLD g <=? current - profit_address_balance g)
     then
       profit_tx_hash <- get_tx g addr (tx_reply w);;
       match profit_tx_hash with
       | Some d =>
           send_telegram_message
             (SUI_ARB_BOT_TOKEN g) (GROUP_SUI_ARB g)
             (THREAD_ONCHAIN_LARGE_PROFIT g)
             {| digest := d;
                previous_balance := profit_address_balance g;
                current_balance := current |}
             (telegram_reply w);;
           ret tt
       | None => ret tt
       end
     else ret tt);;
    ret (set_profit_address_balance g current).

(** The start-up block of [__main__]. *)
Definition startup (g : globals) (reply : http_reply) : M event globals :=
  emit (Print (MonitoringLine (profit_address g)));;
  emit (Print (RpcUrlLine (URL g)));;
  emit (Print (ThresholdLine (BALANCE_DIFF_THRESHOLD g)));;
  initial_balance_str <- get_current_balance g (profit_address g) reply;;
  if negb (eq_str initial_balance_str "0") then
    n <- lift (int initial_balance_str);;
    emit (Print (InitialBalanceLine n));;
    ret (set_profit_address_balance g n)
  else
    emit (Print NoInitialBalanceLine);;
    ret (set_profit_address_balance g 0).

(** [while True: monitor_profit(profit_address); time.sleep(1)], observed
    for as many iterations as the world has ticks.  [Ok] is a loop still
    running; [Raise] an exception that left the loop and ended the
    script. *)
Fixpoint main_loop (g : globals) (ws : list tick) : M event globals :=
  match ws with
  | [] => ret g
  | w :: ws' =>
      g' <- monitor_profit g (profit_address g) w;;
      emit (Sleep 1);;
      main_loop g' ws'
  end.

Definition main (g : globals) (first : http_reply) (ws : list tick)
    : M event globals :=
  g' <- startup g first;;
  main_loop g' ws.

(** Observations of a trace: the notifications sent to the chat, the
    sleeps, and whether it consists of printed lines only. *)
Definition notifications (t : list event) : list message :=
  flat_map (fun ev => match ev with
                      | TelegramPost _ _ _ msg => [msg]
                      | _ => []
                      end) t.

Definition sleeps (t : list event) : list Z :=
  flat_map (fun ev => match ev with Sleep s => [s] | _ => [] end) t.

Definition prints_only (t : list event) : Prop :=
  Forall (fun ev => match ev with Print _ => True | _ => False end) t.

(** The test on line 106: a baseline was recorded and the balance grew by
    the threshold or more. *)
Definition large_profit (g : globals) (current : Z) : bool :=
  negb (profit_address_balance g =? 0)
  && (BALANCE_DIFF_THRESHOLD g <=? current - profit_address_balance g).

End Monitor.

(** ** [scripts/restart_bot.py] *)

Module Restarter.
Import Py.
Local Open Scope py_scope.

(** What the world answers to one [subprocess.run]: the call raises (the
    binary cannot be launched, the user interrupts), or the command
    completes with a return code and the bytes it wrote to stderr. *)
Inductive run_reply : Type :=
| RunRaises (e : exn)
| Completed (returncode : Z) (stderr : list Z).

Inductive level : Type := INFO | ERROR.

(** The log records, one constructor per [logging] call. *)
Inductive line : Type :=
| StartedLine
| BeginLine
| KilledLine
| NotKilledLine (stderr_text : list Z)
| CreatedLine
| SentLine
| TmuxFailedLine (returncode : Z)
| CommandLine
| ReturnCodeLine (returncode : Z)
| UnexpectedLine (e : exn)
| NextRestartLine (timestamp : Z)
| TerminatedLine
| MainLoopErrorLine (e : exn)
| RetryLine.

Inductive event : Type :=
| Run (argv : list string)
| Log (lv : level) (l : line)
| Sleep (seconds : Z).

(** [subprocess.run(argv, check=check)]: with [check], a non-zero return
    code becomes [CalledProcessError]. *)
Definition run (argv : list string) (check : bool) (reply : run_reply)
    : M event (Z * list Z) :=
  emit (Run argv);;
  match reply with
  | RunRaises e => raise e
  | Completed returncode stderr =>
      if check && negb (returncode =? 0)
      then raise (CalledProcessError returncode)
      else ret (returncode, stderr)
  end.

Definition cmd : string :=
  "ENABLE_RECORD_POOL_RELATED_ID=1 cargo run -r --bin arb start-bot "
  ++ "--use-db-simulator --max-recent-arbs 5 --workers 10 --num-simulators 18 "
  ++ "--preload-path /home/ubuntu/sui/pool_related_ids.txt ".

Definition kill_session : list string :=
  ["tmux"; "kill-session"; "-t"; "mev-arb-bot"].
Definition new_session : list string :=
  ["tmux"; "new-session"; "-d"; "-s"; "mev-arb-bot"].
Definition send_keys : list string :=
  ["tmux"; "send-keys"; "-t"; "mev-arb-bot"; cmd; "Enter"].

(** The replies of the world during one iteration of the loop: to the
    three commands, the clock read by [time.time()] in whole seconds, the
    offset of the zone of the process east of UTC in seconds, and whether
    Ctrl-C arrives while the iteration sleeps. *)
Record tick : Type := {
  kill_reply : run_reply;
  new_session_reply : run_reply;
  send_keys_reply : run_reply;
  now : Z;
  utc_offset : Z;
  interrupted : bool
}.

Definition restart_bot (w : tick) : M event unit :=
  try_except
    (kill_result <- run kill_session false (kill_reply w);;
     (if fst kill_result =? 0 then emit (Log INFO KilledLine)
      else
        text <- lift (decode_utf8 (snd kill_result));;
        emit (Log INFO (NotKilledLine text)));;
     run new_session true (new_session_reply w);;
     emit (Log INFO CreatedLine);;
     run send_keys true (send_keys_reply w);;
     emit (Log INFO SentLine))
    (fun e =>
       match e with
       | CalledProcessError returncode =>
           Some (emit (Log ERROR (TmuxFailedLine returncode));;
                 emit (Log ERROR CommandLine);;
                 emit (Log ERROR (ReturnCodeLine returncode)))
       | _ =>
           if is_Exception e
           then Some (emit (Log ERROR (UnexpectedLine e)))
           else None
       end).

(** [datetime.fromtimestamp(t)] for a reading [t] in whole seconds, in a
    process whose zone is [offset] seconds east of UTC.  The local time
    must fall in the years 1 to 9999, and so must the local time a day
    earlier (the probe for a repeated hour): [ValueError] otherwise.
    Outside the years that the C library's [localtime] can express the
    call fails with [OSError], and outside the range of [time_t] with
    [OverflowError]. *)
Definition fromtimestamp (offset t : Z) : result Z :=
  let local := t + offset in
  if (t <? - 2 ^ 63) || (2 ^ 63 <=? t) then Raise OverflowError
  else if (local <? -67768040609740800) || (67768036191676799 <? local)
  then Raise OSError
  else if (-62135596800 <=? local - 86400) && (local <? 253402300800)
  then Ok t
  else Raise ValueError.

Definition sleep (seconds : Z) (interrupt : bool) : M event unit :=
  emit (Sleep seconds);;
  if interrupt then raise KeyboardInterrupt else ret tt.

Definition interval : Z := 3 * 60 * 60.

Inductive control : Type := Continue | Break.

(** The body of [while True] in [main]. *)
Definition iteration (w : tick) : M event control :=
  try_except
    (emit (Log INFO BeginLine);;
     restart_bot w;;
     next_restart_datetime <- lift (fromtimestamp (utc_offset w) (now w + interval));;
     emit (Log INFO (NextRestartLine next_restart_datetime));;
     sleep interval (interrupted w);;
     ret Continue)
    (fun e =>
       match e with
       | KeyboardInterrupt =>
           Some (emit (Log INFO TerminatedLine);; ret Break)
       | _ =>
           Some (emit (Log ERROR (MainLoopErrorLine e));;
                 emit (Log INFO RetryLine);;
                 sleep 60 (interrupted w);;
                 ret Continue)
       end).

(** The loop observed for as many iterations as the world has ticks:
    [Ok Continue] is a loop still running, [Ok Break] a loop left through
    [break]. *)
Fixpoint main_loop (ws : list tick) : M event control :=
  match ws with
  | [] => ret Continue
  | w :: ws' =>
      c <- iteration w;;
      match c with
      | Continue => main_loop ws'
      | Break => ret Break
      end
  end.

Definition main (ws : list tick) : M event control :=
  emit (Log INFO StartedLine);;
  main_loop ws.

(** The command ran and exited with status 0. *)
Definition succeeded (reply : run_reply) : bool :=
  match reply with
  | Completed returncode _ => returncode =? 0
  | RunRaises _ => false
  end.

(** The sleeps of a trace, in order. *)
Definition sleeps (t : list event) : list Z :=
  flat_map (fun ev => match ev with Sleep s => [s] | _ => [] end) t.

(** The commands of a trace, in order. *)
Definition commands (t : list event) : list (list string) :=
  flat_map (fun ev => match ev with Run argv => [argv] | _ => [] end) t.

End Restarter.

(** ** Concrete replies of the world, used as inputs below *)

Module Samples.
Import Py Monitor.

Definition balance_of (total : string) : http_reply :=
  Response 200
    (Some (VDict [("jsonrpc", VStr "2.0");
                  ("id", VInt 1);
                  ("result",
                   VDict [("coinType", VStr "0x2::sui::SUI");
                          ("coinObjectCount", VInt 1);
                          ("totalBalance", VStr total);
                          ("lockedBalance", VDict [])])])).

Definition transactions (data : list value) : http_reply :=
  Response 200
    (Some (VDict [("jsonrpc", VStr "2.0");
                  ("id", VInt 1);
                  ("result",
                   VDict [("data", VList data);
                          ("nextCursor", VNone);
                          ("hasNextPage", VBool false)])])).

Definition one_transaction : http_reply :=
  transactions [VDict [("digest", VStr "9mVxkL")]].

Definition telegram_ok : http_reply :=
  Response 200 (Some (VDict [("ok", VBool true)])).

Definition with_baseline (b : Z) : globals :=
  set_profit_address_balance module_globals b.

(** A node that answers [null] for the result. *)
Definition null_result : http_reply :=
  Response 200
    (Some (VDict [("jsonrpc", VStr "2.0"); ("id", VInt 1);
                  ("result", VNone)])).

(** A node that answers a transaction query with a result that has no
    [data] member. *)
Definition no_data : http_reply :=
  Response 200
    (Some (VDict [("jsonrpc", VStr "2.0"); ("id", VInt 1);
                  ("result", VDict [("nextCursor", VNone);
                                    ("hasNextPage", VBool false)])])).

(** A gateway that answers 200 with a page that is not JSON. *)
Definition not_json : http_reply := Response 200 None.

Definition quiet_tick (balance : http_reply) : tick :=
  {| balance_reply := balance;
     tx_reply := one_transaction;
     telegram_reply := telegram_ok |}.

(** Restarter ticks: the kill answers [kill], the other two commands
    exit with status 0, the clock reads [t] in a process whose zone is
    UTC, nobody interrupts. *)
Definition restart_tick (kill : Restarter.run_reply) (t : Z)
    : Restarter.tick :=
  {| Restarter.kill_reply := kill;
     Restarter.new_session_reply := Restarter.Completed 0 [];
     Restarter.send_keys_reply := Restarter.Completed 0 [];
     Restarter.now := t;
     Restarter.utc_offset := 0;
     Restarter.interrupted := false |}.


(** "can't find session: mev-arb-bot", what tmux writes when there is
    nothing to kill. *)
Definition cant_find_session : list Z :=
  [99; 97; 110; 39; 116; 32; 102; 105; 110; 100; 32; 115; 101; 115; 115;
   105; 111; 110; 58; 32; 109; 101; 118; 45; 97; 114; 98; 45; 98; 111;
   116].

(** 2026-11-04 12:00:00 UTC, and the last second of the year 9999. *)
Definition a_day_in_2026 : Z := 1793793600.

End Samples.

(** ** Shapes of replies and observations used by the further facts *)

Module Observations.
Import Py.

(** The replies to a balance query that [get_current_balance] provides
    for: a post that raises an [Exception], a status other than 200, and a
    200 reply that is an object with an [error] member, or whose [result]
    member is absent or is an object. *)
Definition expected_balance_reply (reply : Monitor.http_reply) : Prop :=
  match reply with
  | Monitor.PostRaises e => is_Exception e = true
  | Monitor.Response status_code json =>
      status_code <> 200
      \/ exists d,
           json = Some (VDict d)
           /\ (assoc "error" d <> None
               \/ match assoc "result" d with
                  | None => True
                  | Some (VDict _) => True
                  | Some _ => False
                  end)
  end.

(** The failures of a transaction query that [get_tx] provides for. *)
Definition failed_reply (reply : Monitor.http_reply) : Prop :=
  match reply with
  | Monitor.PostRaises e => is_Exception e = true
  | Monitor.Response status_code json =>
      status_code <> 200
      \/ exists d, json = Some (VDict d) /\ assoc "error" d <> None
  end.

(** The requests of a trace of the monitor, without the printed lines. *)
Definition requests (t : list Monitor.event) : list Monitor.event :=
  filter (fun ev =>
            match ev with
            | Monitor.RpcPost _ _ | Monitor.TelegramPost _ _ _ _ => true
            | _ => false
            end) t.

(** The kill step lets the call go on: the command exited with status 0,
    or with another status and an error output that decodes. *)
Definition kill_passes (reply : Restarter.run_reply) : bool :=
  match reply with
  | Restarter.Completed returncode stderr =>
      (returncode =? 0) || utf8_valid stderr
  | Restarter.RunRaises _ => false
  end.

Definition not_interrupt (reply : Restarter.run_reply) : Prop :=
  reply <> Restarter.RunRaises KeyboardInterrupt.

(** A tick during which nobody presses Ctrl-C. *)
Definition uninterrupted (w : Restarter.tick) : Prop :=
  Restarter.interrupted w = false
  /\ not_interrupt (Restarter.kill_reply w)
  /\ not_interrupt (Restarter.new_session_reply w)
  /\ not_interrupt (Restarter.send_keys_reply w).

(** The delay that follows an iteration: the clock alone decides it. *)
Definition delay (w : Restarter.tick) : Z :=
  match Restarter.fromtimestamp
        (Restarter.utc_offset w) (Restarter.now w + Restarter.interval) with
  | Ok _ => Restarter.interval
  | Raise _ => 60
  end.

(** The records of level ERROR of a trace of the restarter. *)
Definition errors (t : list Restarter.event) : list Restarter.line :=
  flat_map (fun ev =>
              match ev with
              | Restarter.Log Restarter.ERROR l => [l]
              | _ => []
              end) t.

End Observations.

(** ** Laws of the effect monad *)

Module PyFacts.
Import Py.
Local Open Scope py_scope.

(** Case analysis on the innermost scrutinee that blocks evaluation. *)
Ltac split_case :=
  match goal with
  | |- context [match ?x with _ => _ end] =>
      lazymatch x with
      | context [match _ with _ => _ end] => fail
      | _ => destruct x eqn:?
      end
  end.

Section Laws.
Context {E : Type}.

Lemma bind_ret_l {A B} (a : A) (k : A -> M E B) : bind (ret a) k = k a.
Proof. unfold bind, ret. destruct (k a). reflexivity. Qed.

Lemma bind_assoc {A B C} (m : M E A) (k : A -> M E B) (h : B -> M E C) :
  bind (bind m k) h = bind m (fun a => bind (k a) h).
Proof.
  destruct m as [t [a|e]]; cbn; [|reflexivity].
  destruct (k a) as [t1 [b|e]]; cbn; [|reflexivity].
  destruct (h b) as [t2 r]. now rewrite app_assoc.
Qed.

Lemma bind_ext {A B} (m : M E A) (k1 k2 : A -> M E B) :
  (forall a, outcome m = Ok a -> k1 a = k2 a) -> bind m k1 = bind m k2.
Proof.
  destruct m as [t [a|e]]; cbn; intros H; [|reflexivity].
  now rewrite (H a eq_refl).
Qed.

Lemma outcome_bind {A B} (m : M E A) (k : A -> M E B) :
  outcome (bind m k)
  = match outcome m with
    | Ok a => outcome (k a)
    | Raise e => Raise e
    end.
Proof.
  destruct m as [t [a|e]]; cbn; [|reflexivity].
  destruct (k a); reflexivity.
Qed.

Lemma trace_bind {A B} (m : M E A) (k : A -> M E B) :
  trace (bind m k)
  = trace m ++ match outcome m with
               | Ok a => trace (k a)
               | Raise _ => []
               end.
Proof.
  destruct m as [t [a|e]]; cbn; [|now rewrite app_nil_r].
  destruct (k a); reflexivity.
Qed.
End Laws.

End PyFacts.

(** ** Facts about the monitor *)

Module MonitorFacts.
Import Py PyFacts Monitor Samples.
Local Open Scope py_scope.

Ltac run_cases :=
  repeat (split_case; cbn [fst snd app] in * ); try discriminate.

Ltac unfold_eff :=
  unfold try_except, bind, lift, emit, ret, raise, trace, outcome,
    raise_for_status, response_json.

Lemma notifications_app t1 t2 :
  notifications (t1 ++ t2) = notifications t1 ++ notifications t2.
Proof. apply flat_map_app. Qed.

Lemma sleeps_app t1 t2 : sleeps (t1 ++ t2) = sleeps t1 ++ sleeps t2.
Proof. apply flat_map_app. Qed.

Lemma prints_only_notifications t : prints_only t -> notifications t = [].
Proof.
  induction 1 as [|ev t Hev _ IH]; [reflexivity|].
  destruct ev; try contradiction. exact IH.
Qed.

Lemma prints_only_sleeps t : prints_only t -> sleeps t = [].
Proof.
  induction 1 as [|ev t Hev _ IH]; [reflexivity|].
  destruct ev; try contradiction. exact IH.
Qed.

Lemma get_current_balance_trace g addr reply :
  exists t,
    trace (get_current_balance g addr reply)
    = RpcPost (URL g) (balance_payload addr) :: t
    /\ prints_only t.
Proof.
  unfold get_current_balance; unfold_eff; run_cases.
  all: eexists; split; [reflexivity|]; repeat constructor.
Qed.

Lemma get_tx_trace g addr reply :
  exists t,
    trace (get_tx g addr reply) = RpcPost (URL g) (tx_payload addr) :: t
    /\ prints_only t.
Proof.
  unfold get_tx; unfold_eff; run_cases.
  all: eexists; split; [reflexivity|]; repeat constructor.
Qed.

Lemma send_telegram_message_trace token chat thread msg reply :
  exists t,
    trace (send_telegram_message token chat thread msg reply)
    = TelegramPost token chat thread msg :: t
    /\ prints_only t.
Proof.
  unfold send_telegram_message; unfold_eff; run_cases.
  all: eexists; split; [reflexivity|]; repeat constructor.
Qed.

Lemma get_current_balance_quiet g addr reply :
  notifications (trace (get_current_balance g addr reply)) = []
  /\ sleeps (trace (get_current_balance g addr reply)) = [].
Proof.
  destruct (get_current_balance_trace g addr reply) as (t & -> & Ht).
  cbn. now rewrite prints_only_notifications, prints_only_sleeps.
Qed.

Lemma get_tx_quiet g addr reply :
  notifications (trace (get_tx g addr reply)) = []
  /\ sleeps (trace (get_tx g addr reply)) = [].
Proof.
  destruct (get_tx_trace g addr reply) as (t & -> & Ht).
  cbn. now rewrite prints_only_notifications, prints_only_sleeps.
Qed.

Lemma send_telegram_message_posts token chat thread msg reply :
  notifications (trace (send_telegram_message token chat thread msg reply))
  = [msg]
  /\ sleeps (trace (send_telegram_message token chat thread msg reply)) = [].
Proof.
  destruct (send_telegram_message_trace token chat thread msg reply)
    as (t & -> & Ht).
  cbn. now rewrite prints_only_notifications, prints_only_sleeps.
Qed.


(** C1, as amended: in an iteration that read both balances, exactly one
    notification is posted if the profit is greater than or EQUAL to
    [BALANCE_DIFF_THRESHOLD] and [get_tx] returned a transaction; none is
    posted otherwise. *)
Theorem notification_iff_profit_and_transaction g addr w v current :
  profit_address_balance g <> 0 ->
  outcome (get_current_balance g addr (balance_reply w)) = Ok v ->
  eq_str v "0" = false ->
  int v = Ok current ->
  notifications (trace (monitor_profit g addr w))
  = if BALANCE_DIFF_THRESHOLD g <=? current - profit_address_balance g then
      match outcome (get_tx g addr (tx_reply w)) with
      | Ok (Some d) =>
          [{| digest := d;
              previous_balance := profit_address_balance g;
              current_balance := current |}]
      | _ => []
      end
    else [].
Proof.
  intros Hbase Hget Hne Hint.
  unfold monitor_profit.
  destruct (get_current_balance_quiet g addr (balance_reply w)) as [Hq _].
  destruct (get_current_balance g addr (balance_reply w)) as [t1 r1].
  unfold trace, outcome in *. cbn [fst snd] in *. subst r1.
  apply Z.eqb_neq in Hbase.
  unfold bind at 1. rewrite Hne, Hint. cbn [bind lift].
  rewrite Hbase. cbn [negb andb].
  destruct (BALANCE_DIFF_THRESHOLD g <=? current - profit_address_balance g).
  - destruct (get_tx_quiet g addr (tx_reply w)) as [Hx _].
    destruct (get_tx g addr (tx_reply w)) as [t2 [[d|]|e]];
      unfold trace in Hx; cbn [fst snd] in Hx.
    + cbn [bind lift].
      match goal with
      | |- context [send_telegram_message ?a ?b ?c ?m ?r] =>
          destruct (send_telegram_message_posts a b c m r) as [Hs _];
          destruct (send_telegram_message a b c m r) as [t3 [x|e]]
      end; unfold trace in Hs; cbn [fst snd] in Hs;
        cbn [bind ret lift fst snd];
        rewrite ?app_nil_r, ?notifications_app, Hq, Hx, Hs; reflexivity.
    + cbn [bind ret lift fst snd].
      rewrite ?app_nil_r, ?notifications_app, Hq, Hx; reflexivity.
    + cbn [bind ret lift fst snd].
      rewrite ?app_nil_r, ?notifications_app, Hq, Hx; reflexivity.
  - cbn [bind ret lift fst snd]. rewrite ?app_nil_r. exact Hq.
Qed.

Lemma notification_iff_profit_and_transaction_witness :
  notifications
    (trace (monitor_profit (with_baseline 1) "0x5e1f"
              {| balance_reply := balance_of "500000001";
                 tx_reply := one_transaction;
                 telegram_reply := telegram_ok |}))
  = [{| digest := VStr "9mVxkL";
        previous_balance := 1;
        current_balance := 500000001 |}].
Proof.
  apply (notification_iff_profit_and_transaction
           (with_baseline 1) "0x5e1f"
           {| balance_reply := balance_of "500000001";
              tx_reply := one_transaction;
              telegram_reply := telegram_ok |}
           (VStr "500000001") 500000001).
  - cbn. lia.
  - reflexivity.
  - reflexivity.
  - reflexivity.
Defined.

(** C1 as stated fails both ways: a profit equal to the threshold (which
    does not exceed it) is notified, and a profit above the threshold is
    not notified when the transaction query finds nothing. *)
Lemma notification_exceeds_counterexample :
  (let g := with_baseline 1 in
   let w := {| balance_reply := balance_of "500000001";
               tx_reply := one_transaction;
               telegram_reply := telegram_ok |} in
   profit_address_balance g <> 0
   /\ outcome (get_current_balance g "0x5e1f" (balance_reply w))
      = Ok (VStr "500000001")
   /\ int (VStr "500000001") = Ok 500000001
   /\ ~ (500000001 - profit_address_balance g > BALANCE_DIFF_THRESHOLD g)
   /\ notifications (trace (monitor_profit g "0x5e1f" w)) <> [])
  /\
  (let g := with_baseline 1 in
   let w := {| balance_reply := balance_of "900000000";
               tx_reply := transactions [];
               telegram_reply := telegram_ok |} in
   profit_address_balance g <> 0
   /\ outcome (get_current_balance g "0x5e1f" (balance_reply w))
      = Ok (VStr "900000000")
   /\ int (VStr "900000000") = Ok 900000000
   /\ 900000000 - profit_address_balance g > BALANCE_DIFF_THRESHOLD g
   /\ notifications (trace (monitor_profit g "0x5e1f" w)) = []).
Proof.
  cbv zeta. repeat split; try reflexivity; try discriminate.
  all: cbn; lia.
Qed.

(** *** The balance query *)

(** What [get_current_balance] returns on the replies it expects: a
    failed post, a status other than 200, and a JSON object with or
    without the fields it looks for. *)
Lemma get_current_balance_post_raises g addr e :
  is_Exception e = true ->
  outcome (get_current_balance g addr (PostRaises e)) = Ok (VStr "0").
Proof. destruct e; intros H; try discriminate; reflexivity. Qed.

Lemma get_current_balance_not_200 g addr status_code json :
  status_code <> 200 ->
  outcome (get_current_balance g addr (Response status_code json))
  = Ok (VStr "0").
Proof.
  intros H. apply Z.eqb_neq in H.
  unfold get_current_balance; unfold_eff.
  destruct ((400 <=? status_code) && (status_code <? 600)); cbn;
    [reflexivity|]. now rewrite H.
Qed.

Lemma get_current_balance_object g addr d :
  outcome (get_current_balance g addr (Response 200 (Some (VDict d))))
  = match assoc "error" d with
    | Some _ => Ok (VStr "0")
    | None =>
        match assoc "result" d with
        | Some res =>
            match contains "totalBalance" res with
            | Ok true => getitem res "totalBalance"
            | Ok false => Ok (VStr "0")
            | Raise e => Raise e
            end
        | None => Ok (VStr "0")
        end
    end.
Proof.
  unfold get_current_balance; unfold_eff. cbn.
  destruct (assoc "error" d); cbn; [reflexivity|].
  destruct (assoc "result" d) as [res|]; cbn; [|reflexivity].
  destruct (contains "totalBalance" res) as [[|]|e]; cbn; reflexivity.
Qed.

Lemma get_current_balance_total_balance g addr d res total :
  assoc "error" d = None ->
  assoc "result" d = Some (VDict res) ->
  assoc "totalBalance" res = Some total ->
  outcome (get_current_balance g addr (Response 200 (Some (VDict d))))
  = Ok total.
Proof.
  intros He Hr Ht. rewrite get_current_balance_object, He, Hr.
  cbn. now rewrite Ht.
Qed.

(** A zero balance and a failed query give the same answer. *)
Lemma get_current_balance_zero_is_ambiguous g addr :
  outcome (get_current_balance g addr (balance_of "0"))
  = outcome (get_current_balance g addr (PostRaises RequestException)).
Proof. reflexivity. Qed.

(** C8, at the failing input: a 200 reply without an [error] member whose
    [result] is [null] (or a boolean, or a number) is a response without
    [totalBalance], and the call raises [TypeError] instead of returning
    the string "0". *)
Theorem get_current_balance_raises_on_null_result g addr d res :
  assoc "error" d = None ->
  assoc "result" d = Some res ->
  res = VNone \/ (exists b, res = VBool b) \/ (exists n, res = VInt n) ->
  get_current_balance g addr (Response 200 (Some (VDict d)))
  = ([RpcPost (URL g) (balance_payload addr)], Raise TypeError).
Proof.
  intros Herr Hres Hshape.
  unfold get_current_balance; unfold_eff. cbn.
  rewrite Herr. cbn. rewrite Hres. cbn.
  destruct Hshape as [-> | [[b ->] | [n ->]]]; reflexivity.
Qed.

Lemma get_current_balance_raises_on_null_result_witness :
  get_current_balance module_globals "0x5e1f" null_result
  = ([RpcPost "" (balance_payload "0x5e1f")], Raise TypeError).
Proof.
  apply (get_current_balance_raises_on_null_result
           module_globals "0x5e1f"
           [("jsonrpc", VStr "2.0"); ("id", VInt 1); ("result", VNone)]
           VNone).
  - reflexivity.
  - reflexivity.
  - left. reflexivity.
Defined.

(** C7: either helper posts exactly one request, to [URL]; the balance
    request is JSON-RPC 2.0, method [suix_getBalance], with the address as
    its only parameter; the transaction request is method
    [suix_queryTransactionBlocks], filtered by [ToAddress] equal to the
    address, with no cursor, limit 1 and descending order. *)
Theorem rpc_requests g addr reply :
  (exists t,
      trace (get_current_balance g addr reply)
      = RpcPost (URL g) (balance_payload addr) :: t
      /\ prints_only t)
  /\ getitem (balance_payload addr) "jsonrpc" = Ok (VStr "2.0")
  /\ getitem (balance_payload addr) "method" = Ok (VStr "suix_getBalance")
  /\ getitem (balance_payload addr) "params" = Ok (VList [VStr addr])
  /\ (exists t,
         trace (get_tx g addr reply)
         = RpcPost (URL g) (tx_payload addr) :: t
         /\ prints_only t)
  /\ getitem (tx_payload addr) "jsonrpc" = Ok (VStr "2.0")
  /\ getitem (tx_payload addr) "method"
     = Ok (VStr "suix_queryTransactionBlocks")
  /\ (exists query,
         getitem (tx_payload addr) "params"
         = Ok (VList [query; VNone; VInt 1; VBool true])
         /\ getitem query "filter"
            = Ok (VDict [("ToAddress", VStr addr)])).
Proof.
  split; [apply get_current_balance_trace|].
  do 3 (split; [reflexivity|]).
  split; [apply get_tx_trace|].
  do 2 (split; [reflexivity|]).
  eexists; split; reflexivity.
Qed.

(** *** One call of [monitor_profit] *)

(** The outcome of a call whose balance query answered [v], a value
    other than "0" that [int] reads as [current]: the baseline becomes
    [current], unless [get_tx] or the send raises. *)
Lemma monitor_profit_outcome g addr w v current :
  outcome (get_current_balance g addr (balance_reply w)) = Ok v ->
  eq_str v "0" = false ->
  int v = Ok current ->
  outcome (monitor_profit g addr w)
  = if large_profit g current then
      match outcome (get_tx g addr (tx_reply w)) with
      | Ok (Some d) =>
          match outcome (send_telegram_message
                           (SUI_ARB_BOT_TOKEN g) (GROUP_SUI_ARB g)
                           (THREAD_ONCHAIN_LARGE_PROFIT g)
                           {| digest := d;
                              previous_balance := profit_address_balance g;
                              current_balance := current |}
                           (telegram_reply w)) with
          | Ok _ => Ok (set_profit_address_balance g current)
          | Raise e => Raise e
          end
      | Ok None => Ok (set_profit_address_balance g current)
      | Raise e => Raise e
      end
    else Ok (set_profit_address_balance g current).
Proof.
  intros Hget Hne Hint. unfold monitor_profit.
  rewrite outcome_bind, Hget, Hne, outcome_bind. cbn [lift outcome snd].
  rewrite Hint, outcome_bind. fold (large_profit g current).
  destruct (large_profit g current); [|reflexivity].
  rewrite outcome_bind.
  destruct (outcome (get_tx g addr (tx_reply w))) as [[d|]|e];
    try reflexivity.
  rewrite outcome_bind.
  match goal with
  | |- context [outcome ?m] => destruct (outcome m)
  end; reflexivity.
Qed.

Lemma monitor_profit_skips g addr w :
  outcome (get_current_balance g addr (balance_reply w)) = Ok (VStr "0") ->
  outcome (monitor_profit g addr w) = Ok g.
Proof.
  intros Hget. unfold monitor_profit.
  rewrite outcome_bind, Hget. cbn [eq_str String.eqb Ascii.eqb Bool.eqb].
  rewrite outcome_bind.
  destruct (profit_address_balance g =? 0); reflexivity.
Qed.

Lemma eq_str_true v s : eq_str v s = true -> v = VStr s.
Proof.
  destruct v; cbn; try discriminate.
  intros H. apply String.eqb_eq in H. now subst.
Qed.

Lemma monitor_profit_int_raises g addr w v e :
  outcome (get_current_balance g addr (balance_reply w)) = Ok v ->
  eq_str v "0" = false ->
  int v = Raise e ->
  outcome (monitor_profit g addr w) = Raise e.
Proof.
  intros Hget Hne Hint. unfold monitor_profit.
  rewrite outcome_bind, Hget, Hne, outcome_bind. cbn [lift outcome snd].
  now rewrite Hint.
Qed.

(** C9, at the failing input: with the balance query answered by [v],
    the call leaves the baseline as it was when [v] is "0", and otherwise
    records [int v] as the new baseline at its last line, but only if it
    gets there: an exception from [int], from [get_tx] or from the send
    leaves the call first, and the baseline is not recorded although the
    fetch succeeded.  A transaction reply whose result has no [data]
    member raises so, with [KeyError]. *)
Theorem monitor_profit_records_baseline g addr w v :
  outcome (get_current_balance g addr (balance_reply w)) = Ok v ->
  outcome (monitor_profit g addr w)
  = if eq_str v "0" then Ok g
    else
      match int v with
      | Raise e => Raise e
      | Ok current =>
          if large_profit g current then
            match outcome (get_tx g addr (tx_reply w)) with
            | Raise e => Raise e
            | Ok None => Ok (set_profit_address_balance g current)
            | Ok (Some d) =>
                match outcome (send_telegram_message
                                 (SUI_ARB_BOT_TOKEN g) (GROUP_SUI_ARB g)
                                 (THREAD_ONCHAIN_LARGE_PROFIT g)
                                 {| digest := d;
                                    previous_balance :=
                                      profit_address_balance g;
                                    current_balance := current |}
                                 (telegram_reply w)) with
                | Ok _ => Ok (set_profit_address_balance g current)
                | Raise e => Raise e
                end
            end
          else Ok (set_profit_address_balance g current)
      end.
Proof.
  intros Hget.
  destruct (eq_str v "0") eqn:Hzero.
  - apply eq_str_true in Hzero. subst v. now apply monitor_profit_skips.
  - destruct (int v) as [current|e] eqn:Hint.
    + rewrite (monitor_profit_outcome g addr w v current Hget Hzero Hint).
      destruct (large_profit g current); [|reflexivity].
      destruct (outcome (get_tx g addr (tx_reply w))) as [[d|]|e];
        reflexivity.
    + now apply (monitor_profit_int_raises g addr w v e).
Qed.

Lemma monitor_profit_records_baseline_witness :
  outcome (monitor_profit (with_baseline 1) "0x5e1f"
             {| balance_reply := balance_of "900000000";
                tx_reply := no_data;
                telegram_reply := telegram_ok |})
  = Raise KeyError.
Proof.
  apply (monitor_profit_records_baseline (with_baseline 1) "0x5e1f"
           {| balance_reply := balance_of "900000000";
              tx_reply := no_data;
              telegram_reply := telegram_ok |}
           (VStr "900000000")).
  reflexivity.
Defined.

(** *** The polling loop *)

Lemma set_profit_address_balance_same g :
  set_profit_address_balance g (profit_address_balance g) = g.
Proof. destruct g; reflexivity. Qed.

(** A call assigns no global but [profit_address_balance]. *)
Lemma monitor_profit_frame g addr w g' :
  outcome (monitor_profit g addr w) = Ok g' ->
  g' = set_profit_address_balance g (profit_address_balance g').
Proof.
  unfold monitor_profit. rewrite outcome_bind.
  destruct (outcome (get_current_balance g addr (balance_reply w)))
    as [v|e]; [|discriminate].
  destruct (eq_str v "0").
  - rewrite outcome_bind.
    destruct (profit_address_balance g =? 0); cbn;
      intros [= <-]; now rewrite set_profit_address_balance_same.
  - rewrite outcome_bind. cbn [lift outcome snd].
    destruct (int v) as [current|e]; [|discriminate].
    rewrite outcome_bind.
    match goal with
    | |- context [outcome ?m] => destruct (outcome m)
    end; [|discriminate].
    cbn. intros [= <-]. reflexivity.
Qed.


(** The loop after one more tick. *)
Lemma main_loop_cons g w ws :
  main_loop g (w :: ws)
  = g' <- monitor_profit g (profit_address g) w;;
    emit (Sleep 1);;
    main_loop g' ws.
Proof. reflexivity. Qed.

Lemma main_loop_frame ws : forall g g',
  outcome (main_loop g ws) = Ok g' ->
  g' = set_profit_address_balance g (profit_address_balance g').
Proof.
  induction ws as [|w ws IH]; intros g g'.
  - cbn. intros [= <-]. now rewrite set_profit_address_balance_same.
  - rewrite main_loop_cons, outcome_bind.
    destruct (outcome (monitor_profit g (profit_address g) w))
      as [g1|e] eqn:E1; [|discriminate].
    rewrite outcome_bind. cbn [emit outcome snd].
    intros H. apply IH in H. apply monitor_profit_frame in E1.
    rewrite H, E1. reflexivity.
Qed.

Lemma main_loop_app ws1 : forall g ws2,
  main_loop g (ws1 ++ ws2) = g' <- main_loop g ws1;; main_loop g' ws2.
Proof.
  induction ws1 as [|w ws1 IH]; intros g ws2.
  - cbn [app main_loop]. now rewrite bind_ret_l.
  - cbn [app]. rewrite !main_loop_cons, bind_assoc.
    apply bind_ext. intros g1 _.
    rewrite bind_assoc. apply bind_ext. intros _ _. apply IH.
Qed.

(** C2, at the failing input: an exception that leaves [monitor_profit]
    leaves the loop with it, for the loop has no handler, and no later
    tick is served.  A balance query answered with status 200 and a body
    that is not JSON raises so, outside every [try]. *)
Theorem main_loop_ends_when_monitor_profit_raises g w ws e :
  outcome (monitor_profit g (profit_address g) w) = Raise e ->
  main_loop g (w :: ws)
  = (trace (monitor_profit g (profit_address g) w), Raise e).
Proof.
  intros Hraise. rewrite main_loop_cons.
  destruct (monitor_profit g (profit_address g) w) as [t r].
  unfold outcome, trace in *. cbn [fst snd] in *. subst r. reflexivity.
Qed.

Lemma main_loop_ends_when_monitor_profit_raises_witness :
  main_loop (with_baseline 900000000)
    [quiet_tick not_json; quiet_tick (balance_of "900000000")]
  = ([RpcPost "" (balance_payload "")], Raise JSONDecodeError).
Proof.
  apply (main_loop_ends_when_monitor_profit_raises
           (with_baseline 900000000) (quiet_tick not_json)
           [quiet_tick (balance_of "900000000")] JSONDecodeError).
  reflexivity.
Defined.

(** The errors that the monitor does log and survive: a failed post, a
    status other than 200, an [error] member in the reply. *)
Lemma monitor_profit_survives g addr w :
  (exists e, balance_reply w = PostRaises e /\ is_Exception e = true)
  \/ (exists status_code json,
         balance_reply w = Response status_code json
         /\ status_code <> 200)
  \/ (exists d error,
         balance_reply w = Response 200 (Some (VDict d))
         /\ assoc "error" d = Some error) ->
  outcome (monitor_profit g addr w) = Ok g
  /\ exists l, In (Print l) (trace (get_current_balance g addr
                                      (balance_reply w))).
Proof.
  intros H. split.
  - apply monitor_profit_skips.
    destruct H as [(e & -> & He) | [(st & json & -> & Hst)
                                   | (d & err & -> & Herr)]].
    + now apply get_current_balance_post_raises.
    + now apply get_current_balance_not_200.
    + now rewrite get_current_balance_object, Herr.
  - destruct H as [(e & -> & He) | [(st & json & -> & Hst)
                                   | (d & err & -> & Herr)]].
    + destruct e; try discriminate; eexists; cbn; right; left;
        reflexivity.
    + apply Z.eqb_neq in Hst.
      unfold get_current_balance; unfold_eff.
      destruct ((400 <=? st) && (st <? 600)); cbn [fst snd app].
      * eexists; right; left; reflexivity.
      * rewrite Hst. eexists; right; left; reflexivity.
    + unfold get_current_balance; unfold_eff. cbn.
      rewrite Herr. cbn. eexists; right; left; reflexivity.
Qed.

End MonitorFacts.

(** ** Facts about the restarter *)

Module RestarterFacts.
Import Py PyFacts Restarter Samples.
Local Open Scope py_scope.

Ltac unfold_eff :=
  unfold run, sleep, try_except, bind, lift, emit, ret, raise, trace,
    outcome, decode_utf8.

Lemma restarter_sleeps_app t1 t2 : sleeps (t1 ++ t2) = sleeps t1 ++ sleeps t2.
Proof. apply flat_map_app. Qed.

Lemma commands_app t1 t2 : commands (t1 ++ t2) = commands t1 ++ commands t2.
Proof. apply flat_map_app. Qed.

(** [restart_bot] catches every exception but a keyboard interrupt. *)
Lemma restart_bot_outcome w :
  outcome (restart_bot w) = Ok tt
  \/ outcome (restart_bot w) = Raise KeyboardInterrupt.
Proof.
  unfold restart_bot; unfold_eff.
  destruct (kill_reply w) as [e1|rc1 err1],
           (new_session_reply w) as [e2|rc2 err2],
           (send_keys_reply w) as [e3|rc3 err3];
    repeat (split_case; cbn [fst snd app andb negb] in * );
    try discriminate; auto.
Qed.

(** The commands that one call runs. *)
Lemma restart_bot_commands w :
  commands (trace (restart_bot w))
  = match kill_reply w with
    | RunRaises _ => [kill_session]
    | Completed returncode stderr =>
        if (returncode =? 0) || utf8_valid stderr then
          kill_session :: new_session
            :: (if succeeded (new_session_reply w) then [send_keys] else [])
        else [kill_session]
    end.
Proof.
  unfold restart_bot, succeeded; unfold_eff.
  destruct (kill_reply w) as [e1|rc1 err1],
           (new_session_reply w) as [e2|rc2 err2],
           (send_keys_reply w) as [e3|rc3 err3];
    repeat (split_case; cbn [fst snd app andb negb orb] in * );
    try discriminate; try reflexivity.
Qed.

Lemma restart_bot_sleeps w : sleeps (trace (restart_bot w)) = [].
Proof.
  unfold restart_bot; unfold_eff.
  destruct (kill_reply w) as [e1|rc1 err1],
           (new_session_reply w) as [e2|rc2 err2],
           (send_keys_reply w) as [e3|rc3 err3];
    repeat (split_case; cbn [fst snd app andb negb orb] in * );
    try discriminate; try reflexivity.
Qed.

Lemma restart_bot_sent w :
  In (Log INFO SentLine) (trace (restart_bot w))
  -> succeeded (new_session_reply w) = true
     /\ succeeded (send_keys_reply w) = true.
Proof.
  unfold restart_bot, succeeded; unfold_eff.
  destruct (kill_reply w) as [e1|rc1 err1],
           (new_session_reply w) as [e2|rc2 err2],
           (send_keys_reply w) as [e3|rc3 err3];
    try destruct (rc2 =? 0) eqn:E2; try destruct (rc3 =? 0) eqn:E3;
    cbn [fst snd app andb negb orb];
    repeat (split_case; cbn [fst snd app andb negb orb] in * );
    try discriminate; cbn [In]; intros H;
    repeat (destruct H as [H|H]; try discriminate); try contradiction;
    auto.
Qed.

(** *** One iteration of the main loop *)

Lemma fromtimestamp_raises offset t e :
  fromtimestamp offset t = Raise e ->
  e = ValueError \/ e = OSError \/ e = OverflowError.
Proof.
  unfold fromtimestamp. cbv zeta.
  repeat match goal with
         | |- context [if ?b then _ else _] => destruct b
         end;
    try discriminate; intros [= <-]; auto.
Qed.

Lemma iteration_sleeps w :
  sleeps (trace (iteration w))
  = match outcome (restart_bot w) with
    | Ok _ =>
        match fromtimestamp (utc_offset w) (now w + interval) with
        | Ok _ => [interval]
        | Raise _ => [60]
        end
    | Raise _ => []
    end.
Proof.
  pose proof (restart_bot_sleeps w) as Hs.
  pose proof (restart_bot_outcome w) as Ho.
  unfold iteration.
  destruct (restart_bot w) as [t r]. unfold trace, outcome, sleeps in *.
  cbn [fst snd] in *.
  destruct Ho as [-> | ->]; unfold_eff; cbn [fst snd app flat_map].
  - destruct (fromtimestamp (utc_offset w) (now w + interval)) as [next|e] eqn:E;
      [|apply fromtimestamp_raises in E; destruct E as [-> | [-> | ->]]];
      destruct (interrupted w);
      cbn [fst snd app flat_map];
      rewrite ?flat_map_app, Hs; reflexivity.
  - rewrite ?flat_map_app, Hs; reflexivity.
Qed.

(** How an iteration ends: the loop goes on, is left through [break]
    after Ctrl-C, or (Ctrl-C during the 60 second sleep of the handler)
    the interrupt leaves [main]. *)
Lemma iteration_outcome w :
  outcome (iteration w)
  = match outcome (restart_bot w) with
    | Ok _ =>
        match fromtimestamp (utc_offset w) (now w + interval) with
        | Ok _ => if interrupted w then Ok Break else Ok Continue
        | Raise _ =>
            if interrupted w then Raise KeyboardInterrupt else Ok Continue
        end
    | Raise _ => Ok Break
    end.
Proof.
  pose proof (restart_bot_outcome w) as Ho.
  unfold iteration.
  destruct (restart_bot w) as [t r]. unfold trace, outcome in *.
  cbn [fst snd] in *.
  destruct Ho as [-> | ->]; unfold_eff; cbn [fst snd app].
  - destruct (fromtimestamp (utc_offset w) (now w + interval)) as [next|e] eqn:E;
      [|apply fromtimestamp_raises in E; destruct E as [-> | [-> | ->]]];
      destruct (interrupted w); reflexivity.
  - reflexivity.
Qed.

(** No exception other than a keyboard interrupt leaves an iteration. *)
Lemma iteration_catches_exceptions w e :
  outcome (iteration w) = Raise e -> e = KeyboardInterrupt.
Proof.
  rewrite iteration_outcome.
  destruct (outcome (restart_bot w)); [|discriminate].
  destruct (fromtimestamp (utc_offset w) (now w + interval));
    destruct (interrupted w); try discriminate.
  now intros [= <-].
Qed.

Lemma send_keys_needs_new_session w :
  In send_keys (commands (trace (restart_bot w))) ->
  succeeded (new_session_reply w) = true.
Proof.
  rewrite restart_bot_commands.
  destruct (kill_reply w) as [e|rc err].
  - cbn. intros [H|[]]. discriminate H.
  - destruct ((rc =? 0) || utf8_valid err).
    + destruct (succeeded (new_session_reply w)); [reflexivity|].
      cbn. intros [H|[H|[]]]; discriminate H.
    + cbn. intros [H|[]]. discriminate H.
Qed.




(** C10, as amended: a kill that exits with a non-zero status (its
    stderr being valid UTF-8) does not abort the restart: the new
    session is created next, and the launch command is sent if that
    creation exits with status 0.  What remains is skipped when the new
    session or the send does not exit with status 0, and also when the
    kill itself raises, as it does when tmux cannot be launched. *)
Theorem kill_exit_status_does_not_abort w :
  (forall returncode stderr,
      kill_reply w = Completed returncode stderr ->
      returncode <> 0 ->
      utf8_valid stderr = true ->
      commands (trace (restart_bot w))
      = kill_session :: new_session
          :: (if succeeded (new_session_reply w) then [send_keys] else []))
  /\ (succeeded (new_session_reply w) = false ->
      ~ In send_keys (commands (trace (restart_bot w))))
  /\ (succeeded (send_keys_reply w) = false ->
      ~ In (Log INFO SentLine) (trace (restart_bot w)))
  /\ (forall e,
         kill_reply w = RunRaises e ->
         commands (trace (restart_bot w)) = [kill_session]).
Proof.
  split; [|split; [|split]].
  - intros rc err Hk Hrc Hutf.
    rewrite restart_bot_commands, Hk, Hutf, orb_true_r. reflexivity.
  - intros Hn Hin.
    apply send_keys_needs_new_session in Hin. congruence.
  - intros Hs Hin. apply restart_bot_sent in Hin. destruct Hin.
    congruence.
  - intros e Hk. now rewrite restart_bot_commands, Hk.
Qed.

Lemma kill_exit_status_does_not_abort_witness :
  commands (trace (restart_bot
                     (restart_tick (Completed 1 cant_find_session)
                        a_day_in_2026)))
  = [kill_session; new_session; send_keys].
Proof.
  destruct (kill_exit_status_does_not_abort
              (restart_tick (Completed 1 cant_find_session) a_day_in_2026))
    as (Hkill & _).
  apply (Hkill 1 cant_find_session).
  - reflexivity.
  - lia.
  - reflexivity.
Defined.

(** C10 as stated fails: when the kill cannot be launched (no tmux on
    the path), and when it exits with status 1 after writing a byte that
    is not UTF-8, the call is aborted and neither the new session nor the
    send is run, although both would have succeeded. *)
Lemma kill_failure_aborts_counterexample :
  (let w := restart_tick (RunRaises OSError) a_day_in_2026 in
   succeeded (kill_reply w) = false
   /\ commands (trace (restart_bot w)) = [kill_session]
   /\ ~ In new_session (commands (trace (restart_bot w)))
   /\ ~ In send_keys (commands (trace (restart_bot w))))
  /\
  (let w := restart_tick (Completed 1 [255]) a_day_in_2026 in
   succeeded (kill_reply w) = false
   /\ commands (trace (restart_bot w)) = [kill_session]
   /\ ~ In new_session (commands (trace (restart_bot w)))
   /\ ~ In send_keys (commands (trace (restart_bot w)))).
Proof.
  cbv zeta. repeat split; try reflexivity.
  all: intros [H|[]]; discriminate H.
Qed.

(** *** The loop *)

Lemma restarter_loop_cons w ws :
  main_loop (w :: ws)
  = c <- iteration w;;
    match c with
    | Continue => main_loop ws
    | Break => ret Break
    end.
Proof. reflexivity. Qed.

Lemma restarter_loop_app ws1 ws2 :
  main_loop (ws1 ++ ws2)
  = c <- main_loop ws1;;
    match c with
    | Continue => main_loop ws2
    | Break => ret Break
    end.
Proof.
  induction ws1 as [|w ws1 IH].
  - cbn [app main_loop]. now rewrite bind_ret_l.
  - cbn [app]. rewrite !restarter_loop_cons, bind_assoc.
    apply bind_ext. intros [|] _; [exact IH|].
    now rewrite bind_ret_l.
Qed.


End RestarterFacts.

(** ** The two loops: delays and state *)

Module Loops.
Import Py PyFacts Samples.
Local Open Scope py_scope.







(** C5: a call of [monitor_profit] leaves every global but
    [profit_address_balance] as it was, and what the monitor does after
    any number of iterations depends on them through that one number
    only; what the restarter does after any number of iterations does
    not depend on them at all, beyond the loop having been left. *)
Theorem only_the_baseline_is_carried :
  (forall g addr w g',
      outcome (Monitor.monitor_profit g addr w) = Ok g' ->
      g' = Monitor.set_profit_address_balance
             g (Monitor.profit_address_balance g'))
  /\ (forall g ws1 ws2,
         Monitor.main_loop g (ws1 ++ ws2)
         = g' <- Monitor.main_loop g ws1;;
           Monitor.main_loop
             (Monitor.set_profit_address_balance
                g (Monitor.profit_address_balance g'))
             ws2)
  /\ (forall ws1 ws2,
         Restarter.main_loop (ws1 ++ ws2)
         = c <- Restarter.main_loop ws1;;
           match c with
           | Restarter.Continue => Restarter.main_loop ws2
           | Restarter.Break => ret Restarter.Break
           end).
Proof.
  split; [|split].
  - apply MonitorFacts.monitor_profit_frame.
  - intros g ws1 ws2. rewrite MonitorFacts.main_loop_app.
    apply bind_ext. intros g' Hg'.
    now rewrite <- (MonitorFacts.main_loop_frame ws1 g g' Hg').
  - apply RestarterFacts.restarter_loop_app.
Qed.


End Loops.

(** ** Further facts about the monitor *)

Module MonitorMore.
Import Py PyFacts Monitor Samples Observations MonitorFacts.
Local Open Scope py_scope.

Lemma getitem_ok v k x :
  getitem v k = Ok x -> exists d, v = VDict d /\ assoc k d = Some x.
Proof.
  destruct v; cbn; try discriminate.
  destruct (assoc k d) eqn:E; [|discriminate].
  intros [= <-]. now exists d.
Qed.

Lemma contains_dict_false k d :
  contains k (VDict d) = Ok false -> assoc k d = None.
Proof. cbn. destruct (assoc k d); [discriminate | reflexivity]. Qed.

(** X1: the value returned is "0" or the [totalBalance] member of a 200 reply
    that is an object without an [error] member. *)
Theorem get_current_balance_sound g addr reply v :
  outcome (get_current_balance g addr reply) = Ok v ->
  v = VStr "0"
  \/ exists d r,
       reply = Response 200 (Some (VDict d))
       /\ assoc "error" d = None
       /\ assoc "result" d = Some (VDict r)
       /\ assoc "totalBalance" r = Some v.
Proof.
  unfold get_current_balance; unfold_eff.
  destruct reply as [e|status_code json].
  - destruct e; cbn; intros [= <-]; now left.
  - cbn [fst snd app].
    destruct ((400 <=? status_code) && (status_code <? 600));
      cbn [fst snd app]; [intros [= <-]; now left|].
    destruct (status_code =? 200) eqn:Est;
      cbn [fst snd app]; [|intros [= <-]; now left].
    apply Z.eqb_eq in Est. subst status_code.
    destruct json as [body|]; cbn [fst snd app]; [|discriminate].
    destruct (contains "error" body) as [[|]|e] eqn:Eerr;
      cbn [fst snd app]; [| |discriminate].
    + destruct (getitem body "error"); cbn [fst snd app];
        [intros [= <-]; now left | discriminate].
    + destruct (contains "result" body) as [[|]|e] eqn:Eres;
        cbn [fst snd app]; [| intros [= <-]; now left | discriminate].
      destruct (getitem body "result") as [res|e] eqn:Eget;
        cbn [fst snd app]; [|discriminate].
      destruct (contains "totalBalance" res) as [[|]|e] eqn:Etot;
        cbn [fst snd app]; [| intros [= <-]; now left | discriminate].
      destruct (getitem res "totalBalance") as [total|e] eqn:Egt;
        cbn [fst snd app]; [|discriminate].
      intros [= <-]. right.
      apply getitem_ok in Eget. destruct Eget as (d & -> & Hres).
      apply getitem_ok in Egt. destruct Egt as (r & -> & Htot).
      exists d, r. repeat split; auto using contains_dict_false.
Qed.

Lemma get_current_balance_sound_witness :
  VStr "1200" = VStr "0"
  \/ exists d r,
       balance_of "1200" = Response 200 (Some (VDict d))
       /\ assoc "error" d = None
       /\ assoc "result" d = Some (VDict r)
       /\ assoc "totalBalance" r = Some (VStr "1200").
Proof.
  apply (get_current_balance_sound module_globals "0x5e1f"
           (balance_of "1200") (VStr "1200")).
  reflexivity.
Defined.

(** X2: on every reply it provides for, the balance query returns. *)
Theorem get_current_balance_returns g addr reply :
  expected_balance_reply reply ->
  exists v, outcome (get_current_balance g addr reply) = Ok v.
Proof.
  destruct reply as [e|status_code json]; cbn [expected_balance_reply].
  - intros He. exists (VStr "0").
    now apply get_current_balance_post_raises.
  - intros [Hst | (d & -> & Hd)].
    + exists (VStr "0"). now apply get_current_balance_not_200.
    + destruct (Z.eq_dec status_code 200) as [-> | Hst].
      * rewrite get_current_balance_object.
        destruct (assoc "error" d) as [err|]; [now eexists|].
        destruct Hd as [Hd | Hd]; [congruence|].
        destruct (assoc "result" d) as [[| | | | |l|r]|];
          try contradiction; [|now eexists].
        cbn. destruct (assoc "totalBalance" r); now eexists.
      * exists (VStr "0"). now apply get_current_balance_not_200.
Qed.

Lemma get_current_balance_returns_witness :
  exists v,
    outcome (get_current_balance module_globals "0x5e1f"
               (Response 502 None)) = Ok v.
Proof.
  apply (get_current_balance_returns module_globals "0x5e1f"
           (Response 502 None)).
  left. lia.
Defined.

(** *** The transaction query *)

(** [get_tx] on a 200 reply that is an object. *)
Lemma get_tx_object g addr d :
  outcome (get_tx g addr (Response 200 (Some (VDict d))))
  = match assoc "error" d with
    | Some _ => Ok None
    | None =>
        match assoc "result" d with
        | None => Ok None
        | Some res =>
            match getitem res "data" with
            | Raise e => Raise e
            | Ok data =>
                if truthy data then
                  match len data with
                  | Raise e => Raise e
                  | Ok n =>
                      if 0 <? n then
                        match getitem0 data with
                        | Raise e => Raise e
                        | Ok first =>
                            match getitem first "digest" with
                            | Raise e => Raise e
                            | Ok tx_hash => Ok (Some tx_hash)
                            end
                        end
                      else Ok None
                  end
                else Ok None
            end
        end
    end.
Proof.
  unfold get_tx; unfold_eff. cbn.
  destruct (assoc "error" d); cbn; [reflexivity|].
  destruct (assoc "result" d) as [res|]; cbn; [|reflexivity].
  destruct (getitem res "data") as [data|e]; cbn; [|reflexivity].
  destruct (truthy data); cbn; [|reflexivity].
  destruct (len data) as [n|e]; cbn; [|reflexivity].
  destruct (0 <? n); cbn; [|reflexivity].
  destruct (getitem0 data) as [first|e]; cbn; [|reflexivity].
  destruct (getitem first "digest"); reflexivity.
Qed.

(** X3: with a list of transactions in the reply, [get_tx] returns [None] for
    the empty list and otherwise the digest of the first transaction, the
    others being ignored; a first transaction without a digest raises. *)
Theorem get_tx_first_digest g addr d r l :
  assoc "error" d = None ->
  assoc "result" d = Some (VDict r) ->
  assoc "data" r = Some (VList l) ->
  outcome (get_tx g addr (Response 200 (Some (VDict d))))
  = match l with
    | [] => Ok None
    | first :: _ =>
        match getitem first "digest" with
        | Ok tx_hash => Ok (Some tx_hash)
        | Raise e => Raise e
        end
    end.
Proof.
  intros Herr Hres Hdata. rewrite get_tx_object, Herr, Hres.
  cbn [getitem]. rewrite Hdata.
  destruct l as [|first rest]; [reflexivity|].
  cbn [truthy len getitem0].
  replace (0 <? Z.of_nat (Datatypes.length (first :: rest))) with true.
  - destruct (getitem first "digest"); reflexivity.
  - symmetry. apply Z.ltb_lt. cbn [Datatypes.length]. lia.
Qed.

Lemma get_tx_first_digest_witness :
  outcome (get_tx module_globals "0x5e1f"
             (transactions [VDict [("digest", VStr "9mVxkL")];
                            VDict [("digest", VStr "7Qpa2c")]]))
  = Ok (Some (VStr "9mVxkL")).
Proof.
  apply (get_tx_first_digest module_globals "0x5e1f"
           [("jsonrpc", VStr "2.0"); ("id", VInt 1);
            ("result",
             VDict [("data",
                     VList [VDict [("digest", VStr "9mVxkL")];
                            VDict [("digest", VStr "7Qpa2c")]]);
                    ("nextCursor", VNone);
                    ("hasNextPage", VBool false)])]
           [("data",
             VList [VDict [("digest", VStr "9mVxkL")];
                    VDict [("digest", VStr "7Qpa2c")]]);
            ("nextCursor", VNone);
            ("hasNextPage", VBool false)]
           [VDict [("digest", VStr "9mVxkL")];
            VDict [("digest", VStr "7Qpa2c")]]);
    reflexivity.
Defined.

(** X4: a result object without a [data] member is not reported as "no
    transaction": the subscript on line 184 raises [KeyError]. *)
Theorem get_tx_missing_data_raises g addr d r :
  assoc "error" d = None ->
  assoc "result" d = Some (VDict r) ->
  assoc "data" r = None ->
  outcome (get_tx g addr (Response 200 (Some (VDict d)))) = Raise KeyError.
Proof.
  intros Herr Hres Hdata. rewrite get_tx_object, Herr, Hres.
  cbn [getitem]. now rewrite Hdata.
Qed.

Lemma get_tx_missing_data_raises_witness :
  outcome (get_tx module_globals "0x5e1f"
             (Response 200
                (Some (VDict [("jsonrpc", VStr "2.0"); ("id", VInt 1);
                              ("result", VDict [])]))))
  = Raise KeyError.
Proof.
  apply (get_tx_missing_data_raises module_globals "0x5e1f"
           [("jsonrpc", VStr "2.0"); ("id", VInt 1); ("result", VDict [])]
           []);
    reflexivity.
Defined.

(** X5: a failed query (the post raises, the status is not 200, the reply has
    an [error] member) gives [None], and one line is printed for it. *)
Theorem get_tx_failure_is_none g addr reply :
  failed_reply reply ->
  exists l,
    get_tx g addr reply
    = ([RpcPost (URL g) (tx_payload addr); Print l], Ok None).
Proof.
  destruct reply as [e|status_code json]; cbn [failed_reply].
  - destruct e; try discriminate; intros _; eexists; reflexivity.
  - intros H. unfold get_tx; unfold_eff. cbn [fst snd app].
    destruct ((400 <=? status_code) && (status_code <? 600));
      cbn [fst snd app]; [eexists; reflexivity|].
    destruct (status_code =? 200) eqn:Est; cbn [fst snd app];
      [|eexists; reflexivity].
    apply Z.eqb_eq in Est.
    destruct H as [Hst | (d & -> & Hd)]; [contradiction|].
    cbn. destruct (assoc "error" d) as [err|]; [|contradiction].
    cbn. eexists; reflexivity.
Qed.

Lemma get_tx_failure_is_none_witness :
  exists l,
    get_tx module_globals "0x5e1f" (PostRaises RequestException)
    = ([RpcPost "" (tx_payload "0x5e1f"); Print l], Ok None).
Proof.
  apply (get_tx_failure_is_none module_globals "0x5e1f"
           (PostRaises RequestException)).
  reflexivity.
Defined.

Lemma getitem0_ok data first :
  getitem0 data = Ok first ->
  (exists rest, data = VList (first :: rest))
  \/ (exists c s, data = VStr (String c s)
                  /\ first = VStr (String c EmptyString)).
Proof.
  destruct data as [| | | |s|l|d]; cbn; try discriminate.
  - destruct s as [|c s]; [discriminate|].
    intros [= <-]. right. now exists c, s.
  - destruct l as [|x rest]; [discriminate|].
    intros [= <-]. left. now exists rest.
Qed.

(** X6: a digest returned by [get_tx] is the [digest] member of the first
    element of the [data] list of a 200 reply without an [error]
    member. *)
Theorem get_tx_sound g addr reply tx_hash :
  outcome (get_tx g addr reply) = Ok (Some tx_hash) ->
  exists d r first rest fields,
    reply = Response 200 (Some (VDict d))
    /\ assoc "error" d = None
    /\ assoc "result" d = Some (VDict r)
    /\ assoc "data" r = Some (VList (first :: rest))
    /\ first = VDict fields
    /\ assoc "digest" fields = Some tx_hash.
Proof.
  unfold get_tx; unfold_eff.
  destruct reply as [e|status_code json].
  - destruct e; cbn; discriminate.
  - cbn [fst snd app].
    destruct ((400 <=? status_code) && (status_code <? 600));
      cbn [fst snd app]; [discriminate|].
    destruct (status_code =? 200) eqn:Est;
      cbn [fst snd app]; [|discriminate].
    apply Z.eqb_eq in Est. subst status_code.
    destruct json as [body|]; cbn [fst snd app]; [|discriminate].
    destruct (contains "error" body) as [[|]|e] eqn:Eerr;
      cbn [fst snd app]; [| |discriminate].
    + destruct (getitem body "error"); cbn [fst snd app]; discriminate.
    + destruct (contains "result" body) as [[|]|e] eqn:Eres;
        cbn [fst snd app]; [| discriminate | discriminate].
      destruct (getitem body "result") as [res|e] eqn:Eget;
        cbn [fst snd app]; [|discriminate].
      destruct (getitem res "data") as [data|e] eqn:Edata;
        cbn [fst snd app]; [|discriminate].
      destruct (truthy data); cbn [fst snd app]; [|discriminate].
      destruct (len data) as [n|e]; cbn [fst snd app]; [|discriminate].
      destruct (0 <? n); cbn [fst snd app]; [|discriminate].
      destruct (getitem0 data) as [first|e] eqn:Efirst;
        cbn [fst snd app]; [|discriminate].
      destruct (getitem first "digest") as [x|e] eqn:Edig;
        cbn [fst snd app]; [|discriminate].
      intros [= <-].
      apply getitem_ok in Eget. destruct Eget as (d & -> & Hres).
      apply getitem_ok in Edata. destruct Edata as (r & -> & Hdata).
      apply getitem_ok in Edig. destruct Edig as (fields & -> & Hdig).
      apply getitem0_ok in Efirst.
      destruct Efirst as [(rest & ->) | (c & s & _ & Habs)];
        [|discriminate].
      exists d, r, (VDict fields), rest, fields.
      repeat split; auto using contains_dict_false.
Qed.

Lemma get_tx_sound_witness :
  exists d r first rest fields,
    one_transaction = Response 200 (Some (VDict d))
    /\ assoc "error" d = None
    /\ assoc "result" d = Some (VDict r)
    /\ assoc "data" r = Some (VList (first :: rest))
    /\ first = VDict fields
    /\ assoc "digest" fields = Some (VStr "9mVxkL").
Proof.
  apply (get_tx_sound module_globals "0x5e1f" one_transaction
           (VStr "9mVxkL")).
  reflexivity.
Defined.

(** *** Sending *)

(** X7: [send_telegram_message] returns on every HTTP response: the failure
    dict for a status from 400 to 599 and for a body that is not JSON, the
    decoded body otherwise, whatever the status. *)
Theorem send_telegram_message_returns token chat thread msg status_code json :
  send_telegram_message token chat thread msg (Response status_code json)
  = ([TelegramPost token chat thread msg]
       ++ (if (400 <=? status_code) && (status_code <? 600)
           then [Print (HttpErrorLine InTelegram)]
           else match json with
                | Some _ => []
                | None => [Print (OtherErrorLine InTelegram JSONDecodeError)]
                end),
     Ok (if (400 <=? status_code) && (status_code <? 600)
         then None else json)).
Proof.
  unfold send_telegram_message; unfold_eff.
  destruct ((400 <=? status_code) && (status_code <? 600));
    cbn [fst snd app]; [reflexivity|].
  destruct json; reflexivity.
Qed.

(** X8: a post that raises an [Exception] other than [HTTPError] is survived
    too, with the failure dict. *)
Theorem send_telegram_message_post_raises token chat thread msg e :
  is_Exception e = true ->
  e <> HTTPError ->
  send_telegram_message token chat thread msg (PostRaises e)
  = ([TelegramPost token chat thread msg;
      Print (OtherErrorLine InTelegram e)], Ok None).
Proof.
  destruct e; intros He Hne;
    first [discriminate He | now elim Hne | reflexivity].
Qed.

Lemma send_telegram_message_post_raises_witness :
  send_telegram_message "token" "chat" "thread"
    {| digest := VStr "9mVxkL";
       previous_balance := 1;
       current_balance := 500000001 |}
    (PostRaises RequestException)
  = ([TelegramPost "token" "chat" "thread"
        {| digest := VStr "9mVxkL";
           previous_balance := 1;
           current_balance := 500000001 |};
      Print (OtherErrorLine InTelegram RequestException)], Ok None).
Proof.
  apply (send_telegram_message_post_raises "token" "chat" "thread"
           {| digest := VStr "9mVxkL";
              previous_balance := 1;
              current_balance := 500000001 |}
           RequestException).
  - reflexivity.
  - discriminate.
Defined.

(** *** One call of [monitor_profit], whatever the replies *)

Lemma monitor_profit_notifications g addr w :
  notifications (trace (monitor_profit g addr w))
  = match outcome (get_current_balance g addr (balance_reply w)) with
    | Ok v =>
        if eq_str v "0" then []
        else
          match int v with
          | Ok current =>
              if large_profit g current then
                match outcome (get_tx g addr (tx_reply w)) with
                | Ok (Some d) =>
                    [{| digest := d;
                        previous_balance := profit_address_balance g;
                        current_balance := current |}]
                | _ => []
                end
              else []
          | Raise _ => []
          end
    | Raise _ => []
    end.
Proof.
  unfold monitor_profit.
  destruct (get_current_balance_quiet g addr (balance_reply w)) as [Hq _].
  rewrite trace_bind, notifications_app, Hq. cbn [app].
  destruct (outcome (get_current_balance g addr (balance_reply w)))
    as [v|e]; [|reflexivity].
  destruct (eq_str v "0").
  - destruct (profit_address_balance g =? 0); reflexivity.
  - rewrite trace_bind. cbn [lift trace outcome fst snd app].
    destruct (int v) as [current|e]; [|reflexivity].
    rewrite trace_bind, notifications_app.
    fold (large_profit g current).
    assert (Htail : forall o : result unit,
               notifications
                 match o with
                 | Ok _ => trace (E:=event)
                             (ret (set_profit_address_balance g current))
                 | Raise _ => []
                 end = []) by (intros [|]; reflexivity).
    rewrite Htail, app_nil_r. clear Htail.
    destruct (large_profit g current).
    + destruct (get_tx_quiet g addr (tx_reply w)) as [Hx _].
      rewrite trace_bind, notifications_app, Hx. cbn [app].
      destruct (outcome (get_tx g addr (tx_reply w))) as [[d|]|e].
      * rewrite trace_bind, notifications_app.
        match goal with
        | |- context [send_telegram_message ?a ?b ?c ?m ?r] =>
            destruct (send_telegram_message_posts a b c m r) as [Hs _];
            rewrite Hs;
            destruct (outcome (send_telegram_message a b c m r))
        end; reflexivity.
      * reflexivity.
      * reflexivity.
    + reflexivity.
Qed.

(** X9: while no baseline is recorded (the value 0), no call notifies,
    whatever the node answers: the balance read first only becomes the
    baseline. *)
Theorem no_baseline_no_notification g addr w :
  profit_address_balance g = 0 ->
  notifications (trace (monitor_profit g addr w)) = [].
Proof.
  intros Hzero. rewrite monitor_profit_notifications.
  destruct (outcome (get_current_balance g addr (balance_reply w)))
    as [v|e]; [|reflexivity].
  destruct (eq_str v "0"); [reflexivity|].
  destruct (int v) as [current|e]; [|reflexivity].
  unfold large_profit. rewrite Hzero. reflexivity.
Qed.

Lemma no_baseline_no_notification_witness :
  notifications
    (trace (monitor_profit module_globals "0x5e1f"
              (quiet_tick (balance_of "900000000")))) = [].
Proof.
  apply (no_baseline_no_notification module_globals "0x5e1f"
           (quiet_tick (balance_of "900000000"))).
  reflexivity.
Defined.

(** Within 28 digits nothing is rounded: the amounts printed are the
    balances and their difference. *)
Lemma round28_exact n : Z.abs n < 10 ^ 28 -> round28 n = n.
Proof.
  intros Hn. unfold round28. cbv zeta.
  destruct (Z.to_nat (Z.log2 (Z.abs n))) as [|fuel]; cbn [excess_digits].
  - reflexivity.
  - apply Z.ltb_lt in Hn. rewrite Hn. reflexivity.
Qed.

Lemma amounts_printed m :
  Z.abs (previous_balance m) < 10 ^ 28 ->
  Z.abs (current_balance m) < 10 ^ 28 ->
  Z.abs (current_balance m - previous_balance m) < 10 ^ 28 ->
  shown_previous m = previous_balance m
  /\ shown_current m = current_balance m
  /\ shown_profit m = current_balance m - previous_balance m
  /\ previous_text m = fixed9 (previous_balance m)
  /\ current_text m = fixed9 (current_balance m)
  /\ profit_text m = fixed9 (current_balance m - previous_balance m).
Proof.
  intros Hp Hc Hd.
  unfold previous_text, current_text, profit_text, shown_profit,
    shown_previous, shown_current.
  rewrite (round28_exact _ Hp), (round28_exact _ Hc), (round28_exact _ Hd).
  repeat split; reflexivity.
Qed.

(** Beyond 28 digits the text rounds: a profit of 0.5 SUI on a balance of
    10^28 SUI is printed as no profit at all. *)
Lemma amounts_printed_beyond_28_digits :
  let m := {| digest := VStr "9mVxkL";
              previous_balance := 10 ^ 37;
              current_balance := 10 ^ 37 + 500000000 |} in
  previous_text m = "10000000000000000000000000000.000000000"
  /\ current_text m = "10000000000000000000000000000.000000000"
  /\ profit_text m = "0.000000000".
Proof.
  vm_compute. repeat split; reflexivity.
Qed.

(** X10: a call posts at most one notification.  The text of a
    notification is formatted from the link [get_tx] returned, from the
    baseline of the call, which is not 0, and from the balance the call
    read, which exceeds the baseline by at least the threshold.  While the
    two balances and their difference have at most 28 digits (in MIST) the
    three amounts of the text are these numbers exactly, divided by 10^9
    and printed with nine decimals, so the profit printed is at least the
    threshold; beyond, [Decimal] rounds them. *)
Theorem notification_reports_large_profit g addr w m :
  In m (notifications (trace (monitor_profit g addr w))) ->
  notifications (trace (monitor_profit g addr w)) = [m]
  /\ previous_balance m = profit_address_balance g
  /\ previous_balance m <> 0
  /\ BALANCE_DIFF_THRESHOLD g <= current_balance m - previous_balance m
  /\ (exists v,
         outcome (get_current_balance g addr (balance_reply w)) = Ok v
         /\ int v = Ok (current_balance m))
  /\ outcome (get_tx g addr (tx_reply w)) = Ok (Some (digest m))
  /\ (Z.abs (previous_balance m) < 10 ^ 28 ->
      Z.abs (current_balance m) < 10 ^ 28 ->
      Z.abs (current_balance m - previous_balance m) < 10 ^ 28 ->
      previous_text m = fixed9 (profit_address_balance g)
      /\ current_text m = fixed9 (current_balance m)
      /\ profit_text m
         = fixed9 (current_balance m - profit_address_balance g)
      /\ BALANCE_DIFF_THRESHOLD g <= shown_profit m).
Proof.
  rewrite monitor_profit_notifications.
  destruct (outcome (get_current_balance g addr (balance_reply w)))
    as [v|e]; [|contradiction].
  destruct (eq_str v "0"); [contradiction|].
  destruct (int v) as [current|e] eqn:Hint; [|contradiction].
  destruct (large_profit g current) eqn:Hlarge; [|contradiction].
  destruct (outcome (get_tx g addr (tx_reply w))) as [[d|]|e];
    try contradiction.
  intros [<- | []]. cbn [previous_balance current_balance digest].
  unfold large_profit in Hlarge.
  apply andb_true_iff in Hlarge. destruct Hlarge as [Hbase Hdiff].
  apply negb_true_iff, Z.eqb_neq in Hbase. apply Z.leb_le in Hdiff.
  split; [reflexivity|]. split; [reflexivity|].
  split; [assumption|]. split; [assumption|].
  split; [exists v; split; [reflexivity|assumption]|].
  split; [reflexivity|].
  intros Hp Hc Hd.
  destruct (amounts_printed
              {| digest := d;
                 previous_balance := profit_address_balance g;
                 current_balance := current |} Hp Hc Hd)
    as (_ & _ & Hprofit & Htp & Htc & Htd).
  cbn [previous_balance current_balance] in *.
  split; [assumption|]. split; [assumption|]. split; [assumption|].
  rewrite Hprofit. assumption.
Qed.

Lemma notification_reports_large_profit_witness :
  notifications
    (trace (monitor_profit (with_baseline 1) "0x5e1f"
              (quiet_tick (balance_of "500000001"))))
  = [{| digest := VStr "9mVxkL";
        previous_balance := 1;
        current_balance := 500000001 |}]
  /\ previous_text {| digest := VStr "9mVxkL";
                      previous_balance := 1;
                      current_balance := 500000001 |}
     = "0.000000001"
  /\ current_text {| digest := VStr "9mVxkL";
                     previous_balance := 1;
                     current_balance := 500000001 |}
     = "0.500000001"
  /\ profit_text {| digest := VStr "9mVxkL";
                    previous_balance := 1;
                    current_balance := 500000001 |}
     = "0.500000000"
  /\ BALANCE_DIFF_THRESHOLD (with_baseline 1)
     <= shown_profit {| digest := VStr "9mVxkL";
                        previous_balance := 1;
                        current_balance := 500000001 |}.
Proof.
  destruct (notification_reports_large_profit (with_baseline 1) "0x5e1f"
              (quiet_tick (balance_of "500000001"))
              {| digest := VStr "9mVxkL";
                 previous_balance := 1;
                 current_balance := 500000001 |})
    as (Hone & _ & _ & _ & _ & _ & Htext).
  - left. reflexivity.
  - destruct Htext as (Hp & Hc & Hd & Hthr);
      [reflexivity | reflexivity | reflexivity |].
    split; [exact Hone|]. split; [exact Hp|]. split; [exact Hc|].
    split; [exact Hd|exact Hthr].
Defined.

(** *** The loop and the start-up *)

Lemma in_call_notification g addr w m :
  In m (notifications (trace (monitor_profit g addr w))) ->
  previous_balance m <> 0
  /\ BALANCE_DIFF_THRESHOLD g <= current_balance m - previous_balance m.
Proof.
  rewrite monitor_profit_notifications.
  destruct (outcome (get_current_balance g addr (balance_reply w)))
    as [v|e]; [|contradiction].
  destruct (eq_str v "0"); [contradiction|].
  destruct (int v) as [current|e]; [|contradiction].
  destruct (large_profit g current) eqn:Hlarge; [|contradiction].
  destruct (outcome (get_tx g addr (tx_reply w))) as [[d|]|e];
    try contradiction.
  intros [<- | []]. cbn [previous_balance current_balance].
  unfold large_profit in Hlarge.
  apply andb_true_iff in Hlarge. destruct Hlarge as [Hbase Hdiff].
  apply negb_true_iff, Z.eqb_neq in Hbase. apply Z.leb_le in Hdiff.
  split; assumption.
Qed.

Lemma at_most_one_notification g addr w :
  (List.length (notifications (trace (monitor_profit g addr w))) <= 1)%nat.
Proof.
  rewrite monitor_profit_notifications.
  destruct (outcome (get_current_balance g addr (balance_reply w)))
    as [v|e]; [|cbn; lia].
  destruct (eq_str v "0"); [cbn; lia|].
  destruct (int v) as [current|e]; [|cbn; lia].
  destruct (large_profit g current); [|cbn; lia].
  destruct (outcome (get_tx g addr (tx_reply w))) as [[d|]|e]; cbn; lia.
Qed.

(** X11: over a run of the loop of any length there are never more
    notifications than iterations, and the text of every notification is
    formatted from a previous balance other than 0 and a current balance
    that exceeds it by at least the threshold; while these and their
    difference have at most 28 digits (in MIST), the amounts printed are
    these numbers exactly, so the profit printed is at least the
    threshold and is the difference of the two balances printed. *)
Theorem run_notifications ws : forall g,
  (forall m,
      In m (notifications (trace (main_loop g ws))) ->
      previous_balance m <> 0
      /\ BALANCE_DIFF_THRESHOLD g <= current_balance m - previous_balance m
      /\ (Z.abs (previous_balance m) < 10 ^ 28 ->
          Z.abs (current_balance m) < 10 ^ 28 ->
          Z.abs (current_balance m - previous_balance m) < 10 ^ 28 ->
          previous_text m = fixed9 (previous_balance m)
          /\ current_text m = fixed9 (current_balance m)
          /\ profit_text m
             = fixed9 (current_balance m - previous_balance m)
          /\ shown_previous m <> 0
          /\ shown_profit m = shown_current m - shown_previous m
          /\ BALANCE_DIFF_THRESHOLD g <= shown_profit m))
  /\ (List.length (notifications (trace (main_loop g ws)))
      <= List.length ws)%nat.
Proof.
  assert (Htext : forall (g : globals) m,
             previous_balance m <> 0
             /\ BALANCE_DIFF_THRESHOLD g
                <= current_balance m - previous_balance m ->
             previous_balance m <> 0
             /\ BALANCE_DIFF_THRESHOLD g
                <= current_balance m - previous_balance m
             /\ (Z.abs (previous_balance m) < 10 ^ 28 ->
                 Z.abs (current_balance m) < 10 ^ 28 ->
                 Z.abs (current_balance m - previous_balance m) < 10 ^ 28 ->
                 previous_text m = fixed9 (previous_balance m)
                 /\ current_text m = fixed9 (current_balance m)
                 /\ profit_text m
                    = fixed9 (current_balance m - previous_balance m)
                 /\ shown_previous m <> 0
                 /\ shown_profit m = shown_current m - shown_previous m
                 /\ BALANCE_DIFF_THRESHOLD g <= shown_profit m)).
  { intros g m [Hbase Hdiff].
    split; [assumption|]. split; [assumption|].
    intros Hp Hc Hd.
    destruct (amounts_printed m Hp Hc Hd)
      as (Hsp & Hsc & Hprofit & Htp & Htc & Htd).
    rewrite Hprofit, Hsp, Hsc. repeat split; assumption. }
  induction ws as [|w ws IH]; intros g.
  - split; [intros m []|cbn; lia].
  - rewrite main_loop_cons, trace_bind, notifications_app.
    destruct (outcome (monitor_profit g (profit_address g) w))
      as [g1|e] eqn:E1.
    + rewrite trace_bind, notifications_app. cbn [emit trace outcome fst snd].
      cbn [notifications flat_map app].
      destruct (IH g1) as [IHin IHlen].
      apply monitor_profit_frame in E1.
      assert (Hthr : BALANCE_DIFF_THRESHOLD g1 = BALANCE_DIFF_THRESHOLD g)
        by (rewrite E1; reflexivity).
      rewrite Hthr in IHin.
      split.
      * intros m Hin. apply in_app_or in Hin. destruct Hin as [Hin|Hin].
        -- apply Htext.
           now apply (in_call_notification g (profit_address g) w).
        -- now apply IHin.
      * rewrite length_app. cbn [Datatypes.length].
        pose proof (at_most_one_notification g (profit_address g) w).
        fold (notifications (trace (main_loop g1 ws))). lia.
    + rewrite app_nil_r. split.
      * intros m Hin. apply Htext.
        now apply (in_call_notification g (profit_address g) w).
      * pose proof (at_most_one_notification g (profit_address g) w).
        cbn [Datatypes.length]. lia.
Qed.

(** The value the balance query returns does not depend on the globals
    (they only give the URL posted to). *)
Lemma get_current_balance_outcome_globals g g' addr reply :
  outcome (get_current_balance g addr reply)
  = outcome (get_current_balance g' addr reply).
Proof.
  unfold get_current_balance; unfold_eff; run_cases; reflexivity.
Qed.

Lemma startup_quiet g reply :
  notifications (trace (startup g reply)) = []
  /\ sleeps (trace (startup g reply)) = [].
Proof.
  destruct (get_current_balance_quiet g (profit_address g) reply)
    as [Hn Hs].
  unfold startup.
  destruct (get_current_balance g (profit_address g) reply) as [t [v|e]];
    unfold trace, notifications, sleeps in *; cbn [fst snd] in *;
    unfold bind, emit, ret, lift; cbn [fst snd app flat_map].
  - destruct (eq_str v "0"); cbn [negb fst snd app flat_map];
      [|destruct (int v); cbn [fst snd app flat_map]];
      rewrite ?flat_map_app, ?Hn, ?Hs; split; reflexivity.
  - rewrite Hn, Hs. split; reflexivity.
Qed.

Lemma startup_outcome g reply :
  outcome (startup g reply)
  = match outcome (get_current_balance g (profit_address g) reply) with
    | Ok v =>
        if eq_str v "0" then Ok (set_profit_address_balance g 0)
        else
          match int v with
          | Ok n => Ok (set_profit_address_balance g n)
          | Raise e => Raise e
          end
    | Raise e => Raise e
    end.
Proof.
  unfold startup.
  destruct (get_current_balance g (profit_address g) reply) as [t [v|e]];
    unfold outcome, bind, emit, ret, lift; cbn [fst snd]; [|reflexivity].
  destruct (eq_str v "0"); cbn [negb fst snd]; [reflexivity|].
  destruct (int v); reflexivity.
Qed.

(** X12: when the query of the start-up fails (or reads a zero balance), the
    baseline is reset to 0 whatever it held, and the first iteration of
    the loop then raises no alarm, however large the balance it reads. *)
Theorem failed_startup_raises_no_alarm g first w :
  outcome (get_current_balance g (profit_address g) first)
  = Ok (VStr "0") ->
  outcome (startup g first) = Ok (set_profit_address_balance g 0)
  /\ notifications (trace (main g first [w])) = [].
Proof.
  intros Hfirst.
  assert (Hstart : outcome (startup g first)
                   = Ok (set_profit_address_balance g 0))
    by (rewrite startup_outcome, Hfirst; reflexivity).
  split; [exact Hstart|].
  unfold main. destruct (startup_quiet g first) as [Hq _].
  rewrite trace_bind, notifications_app, Hq, Hstart. cbn [app].
  rewrite main_loop_cons, trace_bind, notifications_app.
  rewrite monitor_profit_notifications.
  assert (Hnone :
            match outcome (get_current_balance
                             (set_profit_address_balance g 0)
                             (profit_address
                                (set_profit_address_balance g 0))
                             (balance_reply w)) with
            | Ok v =>
                if eq_str v "0" then []
                else
                  match int v with
                  | Ok current =>
                      if large_profit (set_profit_address_balance g 0)
                           current
                      then
                        match outcome
                                (get_tx (set_profit_address_balance g 0)
                                   (profit_address
                                      (set_profit_address_balance g 0))
                                   (tx_reply w)) with
                        | Ok (Some d) =>
                            [{| digest := d;
                                previous_balance :=
                                  profit_address_balance
                                    (set_profit_address_balance g 0);
                                current_balance := current |}]
                        | _ => []
                        end
                      else []
                  | Raise _ => []
                  end
            | Raise _ => []
            end = []).
  { destruct (outcome (get_current_balance
                         (set_profit_address_balance g 0)
                         (profit_address (set_profit_address_balance g 0))
                         (balance_reply w))) as [v|e]; [|reflexivity].
    destruct (eq_str v "0"); [reflexivity|].
    destruct (int v); reflexivity. }
  rewrite Hnone. cbn [app].
  destruct (outcome (monitor_profit _ _ w)); reflexivity.
Qed.

Lemma failed_startup_raises_no_alarm_witness :
  outcome (startup (with_baseline 1) (Response 503 None))
  = Ok (with_baseline 0)
  /\ notifications
       (trace (main (with_baseline 1) (Response 503 None)
                 [quiet_tick (balance_of "900000000")])) = [].
Proof.
  apply (failed_startup_raises_no_alarm (with_baseline 1)
           (Response 503 None) (quiet_tick (balance_of "900000000"))).
  reflexivity.
Defined.

(** X13: an initial balance that [int] cannot read ends the script during the
    start-up: the exception leaves [__main__] before the loop is entered,
    and no tick is ever served. *)
Theorem unreadable_initial_balance_ends_script g first ws v e :
  outcome (get_current_balance g (profit_address g) first) = Ok v ->
  eq_str v "0" = false ->
  int v = Raise e ->
  outcome (main g first ws) = Raise e
  /\ sleeps (trace (main g first ws)) = [].
Proof.
  intros Hfirst Hne Hint.
  assert (Hstart : outcome (startup g first) = Raise e)
    by (rewrite startup_outcome, Hfirst, Hne, Hint; reflexivity).
  unfold main. split.
  - now rewrite outcome_bind, Hstart.
  - destruct (startup_quiet g first) as [_ Hs].
    now rewrite trace_bind, sleeps_app, Hs, Hstart.
Qed.

Lemma unreadable_initial_balance_ends_script_witness :
  outcome (main module_globals (balance_of "12.5")
             [quiet_tick (balance_of "900000000")])
  = Raise ValueError
  /\ sleeps (trace (main module_globals (balance_of "12.5")
                      [quiet_tick (balance_of "900000000")])) = [].
Proof.
  apply (unreadable_initial_balance_ends_script module_globals
           (balance_of "12.5") [quiet_tick (balance_of "900000000")]
           (VStr "12.5") ValueError);
    reflexivity.
Defined.

(** X14: the baseline follows every reading, so the threshold is applied to
    the growth since the previous reading: two readings that each grow by
    less than the threshold are never notified, even when together they
    grow by more. *)
Theorem slow_growth_is_never_notified g w1 w2 v1 v2 c1 c2 :
  outcome (get_current_balance g (profit_address g) (balance_reply w1))
  = Ok v1 ->
  eq_str v1 "0" = false ->
  int v1 = Ok c1 ->
  outcome (get_current_balance g (profit_address g) (balance_reply w2))
  = Ok v2 ->
  eq_str v2 "0" = false ->
  int v2 = Ok c2 ->
  c1 - profit_address_balance g < BALANCE_DIFF_THRESHOLD g ->
  c2 - c1 < BALANCE_DIFF_THRESHOLD g ->
  outcome (main_loop g [w1; w2]) = Ok (set_profit_address_balance g c2)
  /\ notifications (trace (main_loop g [w1; w2])) = [].
Proof.
  intros H1 Hne1 Hint1 H2 Hne2 Hint2 Hstep1 Hstep2.
  set (g1 := set_profit_address_balance g c1).
  assert (Hsmall1 : large_profit g c1 = false).
  { unfold large_profit. apply andb_false_iff. right.
    apply Z.leb_gt. lia. }
  assert (Hsmall2 : large_profit g1 c2 = false).
  { unfold large_profit. apply andb_false_iff. right.
    apply Z.leb_gt. cbn. lia. }
  assert (H2' : outcome (get_current_balance g1 (profit_address g1)
                           (balance_reply w2)) = Ok v2).
  { rewrite (get_current_balance_outcome_globals g1 g). exact H2. }
  assert (Ho1 : outcome (monitor_profit g (profit_address g) w1) = Ok g1).
  { rewrite (monitor_profit_outcome g _ w1 v1 c1 H1 Hne1 Hint1), Hsmall1.
    reflexivity. }
  assert (Ho2 : outcome (monitor_profit g1 (profit_address g1) w2)
                = Ok (set_profit_address_balance g c2)).
  { rewrite (monitor_profit_outcome g1 _ w2 v2 c2 H2' Hne2 Hint2), Hsmall2.
    reflexivity. }
  assert (Hn1 : notifications (trace (monitor_profit g (profit_address g) w1))
                = []).
  { rewrite monitor_profit_notifications, H1, Hne1, Hint1, Hsmall1.
    reflexivity. }
  assert (Hn2 : notifications
                  (trace (monitor_profit g1 (profit_address g1) w2)) = []).
  { rewrite monitor_profit_notifications, H2', Hne2, Hint2, Hsmall2.
    reflexivity. }
  split.
  - rewrite main_loop_cons, outcome_bind, Ho1, outcome_bind.
    cbn [emit outcome snd].
    rewrite main_loop_cons, outcome_bind, Ho2, outcome_bind.
    reflexivity.
  - rewrite main_loop_cons, trace_bind, notifications_app, Hn1, Ho1.
    rewrite trace_bind, notifications_app. cbn [emit trace outcome fst snd].
    rewrite main_loop_cons, trace_bind, notifications_app, Hn2, Ho2.
    reflexivity.
Qed.

Lemma slow_growth_is_never_notified_witness :
  outcome (main_loop (with_baseline 1000000000)
             [quiet_tick (balance_of "1400000000");
              quiet_tick (balance_of "1800000000")])
  = Ok (with_baseline 1800000000)
  /\ notifications
       (trace (main_loop (with_baseline 1000000000)
                 [quiet_tick (balance_of "1400000000");
                  quiet_tick (balance_of "1800000000")])) = [].
Proof.
  apply (slow_growth_is_never_notified (with_baseline 1000000000)
           (quiet_tick (balance_of "1400000000"))
           (quiet_tick (balance_of "1800000000"))
           (VStr "1400000000") (VStr "1800000000")
           1400000000 1800000000);
    try reflexivity; cbn; lia.
Defined.

(** *** The requests of one call *)

Lemma requests_app t1 t2 : requests (t1 ++ t2) = requests t1 ++ requests t2.
Proof. apply filter_app. Qed.

Lemma prints_only_requests t : prints_only t -> requests t = [].
Proof.
  induction 1 as [|ev t Hev _ IH]; [reflexivity|].
  destruct ev; try contradiction. exact IH.
Qed.

Lemma get_current_balance_requests g addr reply :
  requests (trace (get_current_balance g addr reply))
  = [RpcPost (URL g) (balance_payload addr)].
Proof.
  destruct (get_current_balance_trace g addr reply) as (t & -> & Ht).
  change (RpcPost (URL g) (balance_payload addr) :: requests t
          = [RpcPost (URL g) (balance_payload addr)]).
  now rewrite (prints_only_requests t Ht).
Qed.

Lemma get_tx_requests g addr reply :
  requests (trace (get_tx g addr reply))
  = [RpcPost (URL g) (tx_payload addr)].
Proof.
  destruct (get_tx_trace g addr reply) as (t & -> & Ht).
  change (RpcPost (URL g) (tx_payload addr) :: requests t
          = [RpcPost (URL g) (tx_payload addr)]).
  now rewrite (prints_only_requests t Ht).
Qed.

Lemma send_telegram_message_requests token chat thread msg reply :
  requests (trace (send_telegram_message token chat thread msg reply))
  = [TelegramPost token chat thread msg].
Proof.
  destruct (send_telegram_message_trace token chat thread msg reply)
    as (t & -> & Ht).
  change (TelegramPost token chat thread msg :: requests t
          = [TelegramPost token chat thread msg]).
  now rewrite (prints_only_requests t Ht).
Qed.

(** X15: a call always posts the balance query first.  It posts the
    transaction query only after a reading that shows a large profit, and
    the notification only after a transaction query that returned a
    digest; it posts nothing else. *)
Theorem monitor_profit_requests g addr w :
  requests (trace (monitor_profit g addr w))
  = RpcPost (URL g) (balance_payload addr)
    :: match outcome (get_current_balance g addr (balance_reply w)) with
       | Ok v =>
           if eq_str v "0" then []
           else
             match int v with
             | Ok current =>
                 if large_profit g current then
                   RpcPost (URL g) (tx_payload addr)
                   :: match outcome (get_tx g addr (tx_reply w)) with
                      | Ok (Some d) =>
                          [TelegramPost
                             (SUI_ARB_BOT_TOKEN g) (GROUP_SUI_ARB g)
                             (THREAD_ONCHAIN_LARGE_PROFIT g)
                             {| digest := d;
                                previous_balance := profit_address_balance g;
                                current_balance := current |}]
                      | _ => []
                      end
                 else []
             | Raise _ => []
             end
       | Raise _ => []
       end.
Proof.
  unfold monitor_profit.
  rewrite trace_bind, requests_app, get_current_balance_requests.
  cbn [app]. f_equal.
  destruct (outcome (get_current_balance g addr (balance_reply w)))
    as [v|e]; [|reflexivity].
  destruct (eq_str v "0").
  - destruct (profit_address_balance g =? 0); reflexivity.
  - rewrite trace_bind. cbn [lift trace outcome fst snd app].
    destruct (int v) as [current|e]; [|reflexivity].
    rewrite trace_bind, requests_app.
    fold (large_profit g current).
    assert (Htail : forall o : result unit,
               requests
                 match o with
                 | Ok _ => trace (E:=event)
                             (ret (set_profit_address_balance g current))
                 | Raise _ => []
                 end = []) by (intros [|]; reflexivity).
    rewrite Htail, app_nil_r. clear Htail.
    destruct (large_profit g current); [|reflexivity].
    rewrite trace_bind, requests_app, get_tx_requests.
    cbn [app]. f_equal.
    destruct (outcome (get_tx g addr (tx_reply w))) as [[d|]|e];
      try reflexivity.
    rewrite trace_bind, requests_app, send_telegram_message_requests.
    match goal with
    | |- context [outcome ?m] => destruct (outcome m)
    end; reflexivity.
Qed.

End MonitorMore.

(** ** Further facts about the restarter *)

Module RestarterMore.
Import Py PyFacts Restarter Samples Observations RestarterFacts.
Local Open Scope py_scope.

(** X16: the success record is logged exactly when the launch command was
    delivered: the kill step let the call go on, and the new session and
    the send both exited with status 0. *)
Theorem sent_line_iff_delivered w :
  In (Log INFO SentLine) (trace (restart_bot w))
  <-> kill_passes (kill_reply w) = true
      /\ succeeded (new_session_reply w) = true
      /\ succeeded (send_keys_reply w) = true.
Proof.
  unfold restart_bot, kill_passes, succeeded; unfold_eff.
  destruct (kill_reply w) as [e1|rc1 err1],
           (new_session_reply w) as [e2|rc2 err2],
           (send_keys_reply w) as [e3|rc3 err3];
    cbn [fst snd app andb negb orb];
    repeat (split_case; cbn [fst snd app andb negb orb] in * );
    try discriminate;
    repeat match goal with
           | H : negb _ = true |- _ => apply negb_true_iff in H
           | H : negb _ = false |- _ => apply negb_false_iff in H
           end;
    (split;
     [ intros H; cbn [In] in H;
       repeat (destruct H as [H|H]; try discriminate H);
       try contradiction; auto
     | intros (Hk & Hn & Hs); try discriminate; try congruence;
       cbn [In]; auto 10 ]).
Qed.

(** X17: a call that returns has either logged the success record and no
    error, or logged at least one error and not the success record: a
    restart never fails silently. *)
Theorem restart_bot_never_fails_silently w :
  outcome (restart_bot w) = Ok tt ->
  (In (Log INFO SentLine) (trace (restart_bot w))
   /\ errors (trace (restart_bot w)) = [])
  \/ (~ In (Log INFO SentLine) (trace (restart_bot w))
      /\ errors (trace (restart_bot w)) <> []).
Proof.
  unfold restart_bot, errors; unfold_eff.
  destruct (kill_reply w) as [e1|rc1 err1],
           (new_session_reply w) as [e2|rc2 err2],
           (send_keys_reply w) as [e3|rc3 err3];
    cbn [fst snd app andb negb orb];
    repeat (split_case; cbn [fst snd app andb negb orb] in * );
    try discriminate; intros _;
    first
      [ left; split; [cbn [In]; auto 10 | reflexivity]
      | right; split;
        [ intros H; cbn [In] in H;
          repeat (destruct H as [H|H]; try discriminate H);
          contradiction
        | cbn [flat_map app]; discriminate ] ].
Qed.

Lemma restart_bot_never_fails_silently_witness :
  ~ In (Log INFO SentLine)
       (trace (restart_bot
                 {| kill_reply := Completed 0 [];
                    new_session_reply := Completed 1 [];
                    send_keys_reply := Completed 0 [];
                    now := a_day_in_2026;
                 utc_offset := 0;
                    interrupted := false |}))
  /\ errors (trace (restart_bot
                      {| kill_reply := Completed 0 [];
                         new_session_reply := Completed 1 [];
                         send_keys_reply := Completed 0 [];
                         now := a_day_in_2026;
                 utc_offset := 0;
                         interrupted := false |}))
     = [TmuxFailedLine 1; CommandLine; ReturnCodeLine 1].
Proof.
  destruct (restart_bot_never_fails_silently
              {| kill_reply := Completed 0 [];
                 new_session_reply := Completed 1 [];
                 send_keys_reply := Completed 0 [];
                 now := a_day_in_2026;
                 utc_offset := 0;
                 interrupted := false |} eq_refl)
    as [[Hsent _] | [Hnot _]].
  - exfalso. cbn in Hsent.
    repeat (destruct Hsent as [Hsent|Hsent]; try discriminate Hsent).
    contradiction.
  - split; [exact Hnot | reflexivity].
Defined.

(** *** Runs of the loop *)

Lemma restart_bot_returns w :
  not_interrupt (kill_reply w) ->
  not_interrupt (new_session_reply w) ->
  not_interrupt (send_keys_reply w) ->
  outcome (restart_bot w) = Ok tt.
Proof.
  unfold not_interrupt, restart_bot; unfold_eff.
  destruct (kill_reply w) as [e1|rc1 err1],
           (new_session_reply w) as [e2|rc2 err2],
           (send_keys_reply w) as [e3|rc3 err3];
    intros H1 H2 H3;
    cbn [fst snd app andb negb orb];
    repeat (split_case; cbn [fst snd app andb negb orb] in * );
    try discriminate; try reflexivity; congruence.
Qed.

Lemma iteration_commands w :
  commands (trace (iteration w)) = commands (trace (restart_bot w)).
Proof.
  pose proof (restart_bot_outcome w) as Ho.
  unfold iteration.
  destruct (restart_bot w) as [t r]. unfold trace, outcome, commands in *.
  cbn [fst snd] in *.
  destruct Ho as [-> | ->]; unfold_eff; cbn [fst snd app flat_map].
  - destruct (fromtimestamp (utc_offset w) (now w + interval)) as [next|e] eqn:E;
      [|apply fromtimestamp_raises in E; destruct E as [-> | [-> | ->]]];
      destruct (interrupted w);
      cbn [fst snd app flat_map];
      rewrite ?flat_map_app; cbn [flat_map app];
      rewrite ?app_nil_r; reflexivity.
  - rewrite ?flat_map_app; cbn [flat_map app]; rewrite ?app_nil_r.
    reflexivity.
Qed.

Lemma iteration_break_is_logged w :
  outcome (iteration w) = Ok Break ->
  In (Log INFO TerminatedLine) (trace (iteration w)).
Proof.
  rewrite iteration_outcome.
  pose proof (restart_bot_outcome w) as Ho.
  unfold iteration.
  destruct (restart_bot w) as [t r]. unfold trace, outcome in *.
  cbn [fst snd] in *.
  destruct Ho as [-> | ->].
  - destruct (fromtimestamp (utc_offset w) (now w + interval)) as [next|e] eqn:E;
      [|apply fromtimestamp_raises in E; destruct E as [-> | [-> | ->]]];
      destruct (interrupted w); try discriminate; intros _;
      unfold_eff; cbn [fst snd app].
    right. apply in_or_app. right. cbn. auto.
  - intros _. unfold_eff; cbn [fst snd app].
    right. apply in_or_app. right. cbn. auto.
Qed.

(** X18: the loop of the restarter is left in two ways only, both after
    Ctrl-C: through [break], with the termination record logged, or by the
    interrupt itself; no [Exception] ever ends it. *)
Theorem main_ends_only_by_interrupt ws :
  (forall e, outcome (main ws) = Raise e -> e = KeyboardInterrupt)
  /\ (outcome (main ws) = Ok Break ->
      In (Log INFO TerminatedLine) (trace (main ws))).
Proof.
  assert (Hloop :
            (forall e, outcome (main_loop ws) = Raise e ->
                       e = KeyboardInterrupt)
            /\ (outcome (main_loop ws) = Ok Break ->
                In (Log INFO TerminatedLine) (trace (main_loop ws)))).
  { induction ws as [|w ws [IHe IHb]].
    - split; [discriminate | discriminate].
    - rewrite restarter_loop_cons, outcome_bind, trace_bind.
      destruct (outcome (iteration w)) as [[|]|e0] eqn:E.
      + split.
        * exact IHe.
        * intros Hb. apply in_or_app. right. now apply IHb.
      + split; [discriminate|].
        intros _. apply in_or_app. left.
        now apply iteration_break_is_logged.
      + split; [|discriminate].
        intros e [= <-]. now apply (iteration_catches_exceptions w). }
  destruct Hloop as [He Hb]. unfold main.
  rewrite outcome_bind, trace_bind. cbn [emit outcome trace fst snd].
  split; [exact He|].
  intros H. right. now apply Hb.
Qed.

Lemma main_ends_only_by_interrupt_witness :
  In (Log INFO TerminatedLine)
     (trace (main [restart_tick (RunRaises KeyboardInterrupt)
                     a_day_in_2026])).
Proof.
  destruct (main_ends_only_by_interrupt
              [restart_tick (RunRaises KeyboardInterrupt) a_day_in_2026])
    as [_ Hbreak].
  apply Hbreak. reflexivity.
Defined.

(** X19: while nobody interrupts, the loop goes on, every tick gets exactly the
    commands of one call of [restart_bot], and one sleep follows each,
    of the length the clock decides. *)
Theorem uninterrupted_run ws :
  Forall uninterrupted ws ->
  outcome (main_loop ws) = Ok Continue
  /\ sleeps (trace (main_loop ws)) = map delay ws
  /\ commands (trace (main_loop ws))
     = flat_map (fun w => commands (trace (restart_bot w))) ws.
Proof.
  induction 1 as [|w ws (Hint & Hk & Hn & Hs) _ (IHo & IHs & IHc)].
  - repeat split.
  - assert (Hbot : outcome (restart_bot w) = Ok tt)
      by now apply restart_bot_returns.
    assert (Hit : outcome (iteration w) = Ok Continue).
    { rewrite iteration_outcome, Hbot, Hint.
      destruct (fromtimestamp (utc_offset w) (now w + interval)); reflexivity. }
    rewrite restarter_loop_cons.
    rewrite outcome_bind, trace_bind, Hit.
    rewrite restarter_sleeps_app, commands_app, iteration_sleeps,
      iteration_commands, Hbot, IHs, IHc.
    split; [exact IHo|]. split; [|reflexivity].
    cbn [map]. unfold delay.
    destruct (fromtimestamp (utc_offset w) (now w + interval)); reflexivity.
Qed.

Lemma uninterrupted_run_witness :
  outcome (main_loop [restart_tick (Completed 1 cant_find_session)
                        a_day_in_2026;
                      restart_tick (Completed 0 []) a_day_in_2026])
  = Ok Continue
  /\ sleeps (trace (main_loop
                      [restart_tick (Completed 1 cant_find_session)
                         a_day_in_2026;
                       restart_tick (Completed 0 []) a_day_in_2026]))
     = [interval; interval]
  /\ commands (trace (main_loop
                        [restart_tick (Completed 1 cant_find_session)
                           a_day_in_2026;
                         restart_tick (Completed 0 []) a_day_in_2026]))
     = [kill_session; new_session; send_keys;
        kill_session; new_session; send_keys].
Proof.
  apply (uninterrupted_run
           [restart_tick (Completed 1 cant_find_session) a_day_in_2026;
            restart_tick (Completed 0 []) a_day_in_2026]).
  repeat constructor; discriminate.
Defined.

(** Once the loop is left, nothing more is run: later ticks leave the run
    as it is. *)
Theorem nothing_runs_after_the_loop ws1 ws2 :
  outcome (main_loop ws1) <> Ok Continue ->
  main_loop (ws1 ++ ws2) = main_loop ws1.
Proof.
  intros Hleft. rewrite restarter_loop_app.
  destruct (main_loop ws1) as [t [[|]|e]]; cbn in *.
  - now elim Hleft.
  - now rewrite app_nil_r.
  - reflexivity.
Qed.

Lemma nothing_runs_after_the_loop_witness :
  main_loop ([restart_tick (RunRaises KeyboardInterrupt) a_day_in_2026]
             ++ [restart_tick (Completed 0 []) a_day_in_2026])
  = main_loop [restart_tick (RunRaises KeyboardInterrupt) a_day_in_2026].
Proof.
  apply (nothing_runs_after_the_loop
           [restart_tick (RunRaises KeyboardInterrupt) a_day_in_2026]
           [restart_tick (Completed 0 []) a_day_in_2026]).
  discriminate.
Defined.

Lemma utf8_valid_ascii bs :
  Forall (fun b => 0 <= b <= 127) bs -> utf8_valid bs = true.
Proof.
  induction 1 as [|b bs Hb _ IH]; [reflexivity|].
  cbn [utf8_valid]. unfold in_range at 1.
  replace ((0 <=? b) && (b <=? 127)) with true; [exact IH|].
  symmetry. apply andb_true_iff. split; apply Z.leb_le; lia.
Qed.

(** X20: a kill that exits with any status and writes only ASCII to stderr
    (as tmux does for a session that is not there) never stops the
    restart: the new session is created next, and the launch command is
    sent if that creation succeeded. *)
Theorem ascii_kill_output_never_aborts w returncode stderr :
  kill_reply w = Completed returncode stderr ->
  Forall (fun b => 0 <= b <= 127) stderr ->
  commands (trace (restart_bot w))
  = kill_session :: new_session
      :: (if succeeded (new_session_reply w) then [send_keys] else []).
Proof.
  intros Hk Hascii.
  rewrite restart_bot_commands, Hk, (utf8_valid_ascii stderr Hascii).
  now rewrite orb_true_r.
Qed.

Lemma ascii_kill_output_never_aborts_witness :
  commands (trace (restart_bot
                     (restart_tick (Completed 1 cant_find_session)
                        a_day_in_2026)))
  = [kill_session; new_session; send_keys].
Proof.
  apply (ascii_kill_output_never_aborts
           (restart_tick (Completed 1 cant_find_session) a_day_in_2026)
           1 cant_find_session).
  - reflexivity.
  - unfold cant_find_session. repeat constructor; lia.
Defined.

End RestarterMore.
